(** * expo-text-extractor: the JavaScript entry points and the Android module

    A shallow embedding of [src/index.ts] (module [Index]) and of
    [ExpoTextExtractorModule.kt] (module [ExpoTextExtractorModule]).

    Strings are Rocq [string]s, read as the UTF-8 bytes of the program's
    UTF-16 strings.  Every literal the program searches for or compares with
    ([file://], [content://], the script tags) is ASCII, and an ASCII byte
    never occurs inside a multi-byte UTF-8 sequence, so prefix tests and
    substring search agree on both representations. *)

From Stdlib Require Import String Ascii List Bool Arith Lia.
Import ListNotations.

Local Open Scope string_scope.
Local Open Scope list_scope.

(** ** Strings *)

Module Str.

(** [s.substring(n)]: the string without its first [n] characters. *)
Fixpoint drop (n : nat) (s : string) : string :=
  match n, s with
  | O, _ => s
  | S _, EmptyString => EmptyString
  | S n', String _ rest => drop n' rest
  end.

(** [haystack.includes(needle)]. *)
Fixpoint includes (needle haystack : string) : bool :=
  if prefix needle haystack then true
  else match haystack with
       | EmptyString => false
       | String _ rest => includes needle rest
       end.

(** JavaScript's [str.replace(searchValue, replaceValue)] for a string
    [searchValue]: the first occurrence, scanning from the left, is replaced
    and everything else is copied; a string without an occurrence is returned
    as it is.  ([replaceValue] is used literally: the call site passes the
    empty string, which holds no [$] pattern.) *)
Fixpoint replace (searchValue replaceValue str : string) : string :=
  if prefix searchValue str
  then (replaceValue ++ drop (String.length searchValue) str)%string
  else match str with
       | EmptyString => EmptyString
       | String c rest => String c (replace searchValue replaceValue rest)
       end.

(** Kotlin's [Char.lowercaseChar()] on the ASCII range: [A]..[Z] (65..90)
    move to [a]..[z]; every other byte is kept. *)
Definition lowercaseChar (c : ascii) : ascii :=
  let n := nat_of_ascii c in
  if ((65 <=? n) && (n <=? 90))%nat then ascii_of_nat (n + 32) else c.

(** The UTF-8 bytes of U+212A KELVIN SIGN, the one character outside ASCII
    whose lowercase form is an ASCII letter ([k]). *)
Definition kelvin : string := String "226" (String "132" (String "170" "")).

(** Kotlin's [String.lowercase()] (root locale), as far as comparisons with
    ASCII strings can tell: the ASCII capitals and the Kelvin sign become
    ASCII small letters.  The bytes of every other non-ASCII character are
    kept; whatever the real function makes of such a character is again
    outside ASCII. *)
Fixpoint lowercase (s : string) : string :=
  match s with
  | String "226" (String "132" (String "170" rest)) => String "k" (lowercase rest)
  | String c rest => String (lowercaseChar c) (lowercase rest)
  | EmptyString => EmptyString
  end.

End Str.

(** ** [src/index.ts] *)

Module Index.

(** The native module as [index.ts] sees it ([requireNativeModule]): two
    asynchronous entry points.  [Options] is the [RecognitionOptions] bag and
    [Script] the optional script argument, both handed over untouched; [P] is
    the promise each call returns. *)
Record NativeModule (Options Script P : Type) : Type := {
  native_extractTextFromImage : string -> option Options -> P;
  native_getSupportedLanguages : option Script -> P
}.
Arguments native_extractTextFromImage {Options Script P}.
Arguments native_getSupportedLanguages {Options Script P}.

Section EntryPoints.
Context {Options Script P : Type}.
Variable ExpoTextExtractorModule : NativeModule Options Script P.

(** [const processedUri = uri.replace('file://', '')]. *)
Definition processedUri (uri : string) : string :=
  Str.replace "file://" "" uri.

Definition extractTextFromImage (uri : string) (options : option Options) : P :=
  native_extractTextFromImage ExpoTextExtractorModule (processedUri uri) options.

Definition getSupportedLanguages (script : option Script) : P :=
  native_getSupportedLanguages ExpoTextExtractorModule script.

End EntryPoints.

(** A native module that answers each call with the arguments it was
    dispatched, so that a run shows what reached the native side. *)
Definition recorder (Options Script : Type)
  : NativeModule Options Script (string * option Options + option Script) := {|
  native_extractTextFromImage := fun uri options => inl (uri, options);
  native_getSupportedLanguages := fun script => inr script
|}.

End Index.

(** ** [ExpoTextExtractorModule.kt] *)

Module ExpoTextExtractorModule.

(** *** Values exchanged with the platform and with ML Kit *)

(** A [java.lang.Exception]; [message] is nullable.  ([Throwable]s that are
    not [Exception]s, which no [catch] of the module handles, are outside the
    model.) *)
Record Exception : Type := { message : option string }.

(** [error.message ?: default]. *)
Definition messageOr (error : Exception) (default : string) : string :=
  match message error with
  | Some m => m
  | None => default
  end.

(** What [appContext.reactContext!!] raises on [null]: an exception without
    a message. *)
Definition NullPointerException : Exception := {| message := None |}.

(** [CodedException(code, message, cause)]. *)
Record CodedException : Type := {
  code : string;
  codedMessage : string;
  cause : Exception
}.

(** How the [Promise] of an [AsyncFunction] ends: settled by
    [promise.resolve], settled by [promise.reject], or never settled, when
    the function returns without either call and no listener makes one
    later. *)
Inductive Settlement : Type :=
| Resolved (value : list string)
| Rejected (error : CodedException)
| Unsettled.

(** [class RecognitionOptionsRecord : Record]. *)
Record RecognitionOptionsRecord : Type := {
  script : option string;
  languages : option (list string)
}.

(** [android.content.Context]. *)
Inductive AndroidContext : Type := TheReactContext.

(** [android.net.Uri], by the factory that built it. *)
Inductive Uri : Type :=
| Uri_parse (uriString : string)
| Uri_fromFile (path : string).

(** [InputImage]: decoded image data, opaque to the module. *)
Inductive InputImage : Type := ImageData (id : nat).

(** ML Kit's [Text.TextBlock] and [Text]. *)
Record TextBlock : Type := { text : string; lines : list string }.
Record Text : Type := { textBlocks : list TextBlock }.

(** The five recognizer models the module links against. *)
Inductive Script : Type := Latin | Chinese | Devanagari | Japanese | Korean.

(** A [TextRecognizer] client: the model it was built for and the serial
    number of its construction, which stands for the object's identity. *)
Record TextRecognizer : Type := { model : Script; serial : nat }.

(** The result of a call that can raise. *)
Inductive Outcome (A : Type) : Type :=
| Returns (a : A)
| Throws (e : Exception).
Arguments Returns {A}.
Arguments Throws {A}.

(** The [Task<Text>] that [recognizer.process(image)] returns, by the way it
    ends: with a [Text], with an exception, or cancelled.  The module
    registers a listener for the first two ([addOnSuccessListener],
    [addOnFailureListener]) and none for the third. *)
Inductive Task : Type :=
| TaskSuccess (visionText : Text)
| TaskFailure (e : Exception)
| TaskCanceled.

(** Everything outside the module that a call depends on. *)
Record Env : Type := {
  reactContext : option AndroidContext;                   (* appContext.reactContext *)
  File_exists : string -> bool;                     (* File(path).exists() *)
  InputImage_fromFilePath : AndroidContext -> Uri -> Outcome InputImage;
  getClient_failure : Script -> option Exception;   (* TextRecognition.getClient raising *)
  process : TextRecognizer -> InputImage -> Outcome Task;
  close_failure : TextRecognizer -> option Exception;  (* recognizer.close() raising *)
  super_onDestroy : option Exception                (* Module.onDestroy() raising *)
}.

(** The calls into ML Kit a run makes, in order, each with its answer. *)
Inductive Event : Type :=
| GetClient (s : Script) (result : Outcome TextRecognizer)
| FromFilePath (uri : Uri) (result : Outcome InputImage)
| Process (recognizer : TextRecognizer) (image : InputImage) (result : Outcome Task)
| Close (recognizer : TextRecognizer) (result : option Exception).

(** *** The module's mutable state *)

(** The five [by lazy] delegates ([None]: not initialized yet) and the number
    of recognizer clients constructed so far. *)
Record Store : Type := {
  latin : option TextRecognizer;
  chinese : option TextRecognizer;
  devanagari : option TextRecognizer;
  japanese : option TextRecognizer;
  korean : option TextRecognizer;
  constructed : nat
}.

(** A freshly created module: no delegate has run its initializer. *)
Definition initialStore : Store := {|
  latin := None; chinese := None; devanagari := None;
  japanese := None; korean := None; constructed := 0
|}.

Definition delegate (s : Script) (st : Store) : option TextRecognizer :=
  match s with
  | Latin => latin st
  | Chinese => chinese st
  | Devanagari => devanagari st
  | Japanese => japanese st
  | Korean => korean st
  end.

(** The delegate of [s] initialized with the client [r], one more client
    counted. *)
Definition initialize (s : Script) (r : TextRecognizer) (st : Store) : Store :=
  let n := S (constructed st) in
  match s with
  | Latin => {| latin := Some r; chinese := chinese st; devanagari := devanagari st;
                japanese := japanese st; korean := korean st; constructed := n |}
  | Chinese => {| latin := latin st; chinese := Some r; devanagari := devanagari st;
                  japanese := japanese st; korean := korean st; constructed := n |}
  | Devanagari => {| latin := latin st; chinese := chinese st; devanagari := Some r;
                     japanese := japanese st; korean := korean st; constructed := n |}
  | Japanese => {| latin := latin st; chinese := chinese st; devanagari := devanagari st;
                   japanese := Some r; korean := korean st; constructed := n |}
  | Korean => {| latin := latin st; chinese := chinese st; devanagari := devanagari st;
                 japanese := japanese st; korean := Some r; constructed := n |}
  end.

(** *** Computations: state, exceptions and the trace of vendor calls

    A statement runs from a store and ends by returning or raising; either
    way it leaves a store (what it wrote before raising stays written) and
    the vendor calls it made. *)
Record Run (A : Type) : Type := {
  outcome : Outcome A;
  store : Store;
  trace : list Event
}.
Arguments outcome {A}.
Arguments store {A}.
Arguments trace {A}.
Arguments Build_Run {A}.

Definition M (A : Type) : Type := Store -> Run A.

Definition ret {A} (a : A) : M A :=
  fun st => {| outcome := Returns a; store := st; trace := [] |}.

Definition throw {A} (e : Exception) : M A :=
  fun st => {| outcome := Throws e; store := st; trace := [] |}.

(** The run [r] with the vendor calls [before] in front of its own. *)
Definition after {A} (before : list Event) (r : Run A) : Run A :=
  match r with
  | Build_Run o st t => Build_Run o st (before ++ t)
  end.

Definition bind {A B} (m : M A) (k : A -> M B) : M B :=
  fun st =>
    match m st with
    | Build_Run (Returns a) st1 t1 => after t1 (k a st1)
    | Build_Run (Throws e) st1 t1 => Build_Run (Throws e) st1 t1
    end.

(** [try { body } catch (error: Exception) { handler(error) }]. *)
Definition tryCatch {A} (body : M A) (handler : Exception -> M A) : M A :=
  fun st =>
    match body st with
    | Build_Run (Returns a) st1 t1 => Build_Run (Returns a) st1 t1
    | Build_Run (Throws e) st1 t1 => after t1 (handler e st1)
    end.

(** A vendor call that does not touch the store: its answer is logged. *)
Definition call {A} (answer : Outcome A) (ev : Event) : M A :=
  fun st => {| outcome := answer; store := st; trace := [ev] |}.

Notation "x <- m ;; k" := (bind m (fun x => k))
  (at level 61, m at next level, right associativity).
Notation "m ;;; k" := (bind m (fun _ => k))
  (at level 61, right associativity).

(** *** The lazy recognizers *)

(** Reading a [by lazy] property: an initialized delegate hands back the
    client it holds; otherwise the initializer [TextRecognition.getClient]
    runs, and the delegate keeps the client only if the initializer returned
    (an initializer that raised runs again at the next read). *)
Definition lazyValue (env : Env) (s : Script) : M TextRecognizer :=
  fun st =>
    match delegate s st with
    | Some r => ret r st
    | None =>
        match getClient_failure env s with
        | Some e => call (Throws e) (GetClient s (Throws e)) st
        | None =>
            let r := {| model := s; serial := constructed st |} in
            {| outcome := Returns r;
               store := initialize s r st;
               trace := [GetClient s (Returns r)] |}
        end
    end.

Definition latinRecognizer (env : Env) : M TextRecognizer := lazyValue env Latin.
Definition chineseRecognizer (env : Env) : M TextRecognizer := lazyValue env Chinese.
Definition devanagariRecognizer (env : Env) : M TextRecognizer := lazyValue env Devanagari.
Definition japaneseRecognizer (env : Env) : M TextRecognizer := lazyValue env Japanese.
Definition koreanRecognizer (env : Env) : M TextRecognizer := lazyValue env Korean.

(** [when (script?.lowercase()) { "chinese" -> ... else -> latinRecognizer }]. *)
Definition getRecognizerForScript (env : Env) (script : option string)
  : M TextRecognizer :=
  match option_map Str.lowercase script with
  | Some tag =>
      if (tag =? "chinese")%string then chineseRecognizer env
      else if (tag =? "devanagari")%string then devanagariRecognizer env
      else if (tag =? "japanese")%string then japaneseRecognizer env
      else if (tag =? "korean")%string then koreanRecognizer env
      else latinRecognizer env
  | None => latinRecognizer env
  end.

Definition availableScripts : list string :=
  ["latin"; "chinese"; "devanagari"; "japanese"; "korean"].

(** *** The two asynchronous functions *)

(** [appContext.reactContext!!]. *)
Definition requireContext (env : Env) : M AndroidContext :=
  match reactContext env with
  | Some context => ret context
  | None => throw NullPointerException
  end.

(** The [if (uriString.startsWith("content://")) ... else ...] expression. *)
Definition resolveUri (env : Env) (uriString : string) : M Uri :=
  if prefix "content://" uriString then ret (Uri_parse uriString)
  else if negb (File_exists env uriString)
       then throw {| message := Some ("File not found: " ++ uriString)%string |}
       else ret (Uri_fromFile uriString).

Definition fromFilePath (env : Env) (context : AndroidContext) (uri : Uri)
  : M InputImage :=
  let answer := InputImage_fromFilePath env context uri in
  call answer (FromFilePath uri answer).

Definition processImage (env : Env) (recognizer : TextRecognizer)
    (inputImage : InputImage) : M Task :=
  let answer := process env recognizer inputImage in
  call answer (Process recognizer inputImage answer).

(** The success listener. *)
Definition onSuccess (visionText : Text) : Settlement :=
  let recognizedTexts := map text (textBlocks visionText) in
  Resolved recognizedTexts.

(** The failure listener. *)
Definition onFailure (error : Exception) : Settlement :=
  Rejected {| code := "TEXT_RECOGNITION_ERROR";
              codedMessage := messageOr error "Text recognition failed";
              cause := error |}.

(** The [catch (error: Exception)] clause of [extractTextFromImage]. *)
Definition onException (error : Exception) : Settlement :=
  Rejected {| code := "UNKNOWN_ERROR";
              codedMessage := messageOr error "Unknown error";
              cause := error |}.

(** [options?.script]. *)
Definition scriptOf (options : option RecognitionOptionsRecord) : option string :=
  match options with
  | Some o => script o
  | None => None
  end.

(** [AsyncFunction("extractTextFromImage")]: the value is the way the promise
    ends, settled by the [catch] clause or by one of the two listeners, or
    left unsettled when the task is cancelled and neither listener runs. *)
Definition extractTextFromImage (env : Env) (uriString : string)
    (options : option RecognitionOptionsRecord) : M Settlement :=
  tryCatch
    (context <- requireContext env ;;
     uri <- resolveUri env uriString ;;
     inputImage <- fromFilePath env context uri ;;
     recognizer <- getRecognizerForScript env (scriptOf options) ;;
     task <- processImage env recognizer inputImage ;;
     ret (match task with
          | TaskSuccess visionText => onSuccess visionText
          | TaskFailure error => onFailure error
          | TaskCanceled => Unsettled
          end))
    (fun error => ret (onException error)).

(** [AsyncFunction("getSupportedLanguages")]: the argument is ignored. *)
Definition getSupportedLanguages (_ : option string) : M Settlement :=
  ret (Resolved availableScripts).

(** *** Teardown *)

(** [recognizer.close()]. *)
Definition close (env : Env) (recognizer : TextRecognizer) : M unit :=
  call (match close_failure env recognizer with
        | Some e => Throws e
        | None => Returns tt
        end)
       (Close recognizer (close_failure env recognizer)).

(** One [try { xRecognizer.close() } catch (_: Exception) {}] block. *)
Definition closeQuietly (recognizerProperty : M TextRecognizer) (env : Env) : M unit :=
  tryCatch (recognizer <- recognizerProperty ;; close env recognizer)
           (fun _ => ret tt).

(** The statement [super.onDestroy()]. *)
Definition callSuper (env : Env) : M unit :=
  match super_onDestroy env with
  | Some e => throw e
  | None => ret tt
  end.

Definition onDestroy (env : Env) : M unit :=
  closeQuietly (latinRecognizer env) env ;;;
  closeQuietly (chineseRecognizer env) env ;;;
  closeQuietly (devanagariRecognizer env) env ;;;
  closeQuietly (japaneseRecognizer env) env ;;;
  closeQuietly (koreanRecognizer env) env ;;;
  callSuper env.

End ExpoTextExtractorModule.

Import ExpoTextExtractorModule.

(** ** Sample environments and inputs *)

Module Samples.

Definition receipt : Text := {|
  textBlocks := [ {| text := "TOTAL"; lines := ["TOTAL"] |};
                  {| text := "12.50 EUR"; lines := ["12.50"; "EUR"] |} ]
|}.

Definition blankPage : Text := {| textBlocks := [] |}.

Definition IOException : Exception := {| message := None |}.

(** A device on which the paths in [files] exist and decode, every
    [content://] locator fails to load, every recognizer can be built and
    closed, and recognition completes with [answer]. *)
Definition device (files : list string) (answer : Task) : Env := {|
  reactContext := Some TheReactContext;
  File_exists := fun path => existsb (String.eqb path) files;
  InputImage_fromFilePath := fun _ uri =>
    match uri with
    | Uri_fromFile _ => Returns (ImageData 0)
    | Uri_parse _ => Throws IOException
    end;
  getClient_failure := fun _ => None;
  process := fun _ _ => Returns answer;
  close_failure := fun _ => None;
  super_onDestroy := None
|}.

(** The same device while the module has no React context. *)
Definition detached (files : list string) (answer : Task) : Env := {|
  reactContext := None;
  File_exists := File_exists (device files answer);
  InputImage_fromFilePath := InputImage_fromFilePath (device files answer);
  getClient_failure := getClient_failure (device files answer);
  process := process (device files answer);
  close_failure := close_failure (device files answer);
  super_onDestroy := None
|}.

(** A device on which the Korean model cannot be built and closing any
    client raises. *)
Definition faulty : Env := {|
  reactContext := Some TheReactContext;
  File_exists := fun _ => true;
  InputImage_fromFilePath := fun _ _ => Returns (ImageData 0);
  getClient_failure := fun s =>
    match s with
    | Korean => Some {| message := Some "model unavailable" |}
    | _ => None
    end;
  process := fun _ _ => Returns (TaskFailure {| message := None |});
  close_failure := fun _ => Some {| message := Some "already closed" |};
  super_onDestroy := None
|}.

Definition chineseOptions : RecognitionOptionsRecord :=
  {| script := Some "chinese"; languages := None |}.

Definition koreanOptions : RecognitionOptionsRecord :=
  {| script := Some "korean"; languages := None |}.

(** A device on which everything works except the base class's
    [onDestroy], which raises. *)
Definition unhooked : Env := {|
  reactContext := Some TheReactContext;
  File_exists := fun _ => true;
  InputImage_fromFilePath := fun _ _ => Returns (ImageData 0);
  getClient_failure := fun _ => None;
  process := fun _ _ => Returns (TaskSuccess blankPage);
  close_failure := fun _ => None;
  super_onDestroy := Some {| message := Some "base class failed" |}
|}.

End Samples.

(** ** Notions used to state the properties *)

(** The script tags of [TextRecognitionScript] that name a model other than
    the default one. *)
Definition recognizedTags : list string :=
  ["chinese"; "devanagari"; "japanese"; "korean"].

(** The model whose lazy property the [when] of [getRecognizerForScript]
    reads. *)
Definition selectedScript (script : option string) : Script :=
  match option_map Str.lowercase script with
  | Some tag =>
      if (tag =? "chinese")%string then Chinese
      else if (tag =? "devanagari")%string then Devanagari
      else if (tag =? "japanese")%string then Japanese
      else if (tag =? "korean")%string then Korean
      else Latin
  | None => Latin
  end.

(** The Android module behind the JavaScript entry points: the bridge hands
    the arguments over as they are. *)
Definition androidModule (env : Env)
  : Index.NativeModule RecognitionOptionsRecord string (M Settlement) := {|
  Index.native_extractTextFromImage := extractTextFromImage env;
  Index.native_getSupportedLanguages := getSupportedLanguages
|}.

(** A run that ends the way a failed existence check ends it: the promise is
    rejected with the message of that check, and no vendor call was made. *)
Definition rejectedAsNotFound (uriString : string) (r : Run Settlement) : Prop :=
  exists error,
    outcome r = Returns (Rejected error)
    /\ codedMessage error = ("File not found: " ++ uriString)%string
    /\ trace r = [].

(** A vendor call that went well: it returned, and a recognition task
    completed with a text. *)
Definition succeeded (ev : Event) : bool :=
  match ev with
  | GetClient _ (Returns _) => true
  | FromFilePath _ (Returns _) => true
  | Process _ _ (Returns (TaskSuccess _)) => true
  | Close _ None => true
  | _ => false
  end.

(** A call of [process] that returned its task. *)
Definition handsOutTask (ev : Event) : bool :=
  match ev with Process _ _ (Returns _) => true | _ => false end.

Definition isGetClient (ev : Event) : bool :=
  match ev with GetClient _ _ => true | _ => false end.

Definition isFromFilePath (ev : Event) : bool :=
  match ev with FromFilePath _ _ => true | _ => false end.

Definition isProcess (ev : Event) : bool :=
  match ev with Process _ _ _ => true | _ => false end.

Definition Script_eqb (s s' : Script) : bool :=
  match s, s' with
  | Latin, Latin | Chinese, Chinese | Devanagari, Devanagari
  | Japanese, Japanese | Korean, Korean => true
  | _, _ => false
  end.

(** A client for [s] was built. *)
Definition builds (s : Script) (ev : Event) : bool :=
  match ev with
  | GetClient s' (Returns _) => Script_eqb s s'
  | _ => false
  end.

Definition allScripts : list Script :=
  [Latin; Chinese; Devanagari; Japanese; Korean].

(** The guarded blocks of [onDestroy] for the scripts of a list, in order,
    followed by [rest]. *)
Definition closeAllThen (env : Env) (scripts : list Script) (rest : M unit) : M unit :=
  fold_right (fun s k => bind (closeQuietly (lazyValue env s) env) (fun _ => k))
             rest scripts.

(** What teardown owes the recognizer of [s], from the store [before] to the
    store [after] with the vendor calls [calls]: an initialized delegate has
    its client closed; a delegate that was never initialized is initialized
    now and that client closed, unless building it raises, and then the
    delegate stays as it was. *)
Definition released (env : Env) (s : Script) (before after : Store)
    (calls : list Event) : Prop :=
  match delegate s before with
  | Some recognizer =>
      delegate s after = Some recognizer
      /\ In (Close recognizer (close_failure env recognizer)) calls
  | None =>
      match getClient_failure env s with
      | Some e =>
          delegate s after = None /\ In (GetClient s (Throws e)) calls
      | None =>
          exists recognizer,
            model recognizer = s
            /\ delegate s after = Some recognizer
            /\ In (GetClient s (Returns recognizer)) calls
            /\ In (Close recognizer (close_failure env recognizer)) calls
      end
  end.

(** A sequence of [extractTextFromImage] requests served one after the
    other by one module instance. *)
Fixpoint serve (env : Env) (requests : list (string * option RecognitionOptionsRecord))
  : M (list Settlement) :=
  match requests with
  | [] => ret []
  | (uriString, options) :: later =>
      bind (extractTextFromImage env uriString options) (fun settled =>
      bind (serve env later) (fun others => ret (settled :: others)))
  end.

(** ** [src/types.ts] *)

Module Types.

(** [export enum TextRecognitionScript]. *)
Inductive TextRecognitionScript : Type :=
| LATIN | CHINESE | DEVANAGARI | JAPANESE | KOREAN.

(** The string each member stands for at run time. *)
Definition value (member : TextRecognitionScript) : string :=
  match member with
  | LATIN => "latin"
  | CHINESE => "chinese"
  | DEVANAGARI => "devanagari"
  | JAPANESE => "japanese"
  | KOREAN => "korean"
  end.

(** The members in the order of their declaration. *)
Definition members : list TextRecognitionScript :=
  [LATIN; CHINESE; DEVANAGARI; JAPANESE; KOREAN].

End Types.

(** The recognizer model a member of the enumeration names. *)
Definition modelOf (member : Types.TextRecognitionScript) : Script :=
  match member with
  | Types.LATIN => Latin
  | Types.CHINESE => Chinese
  | Types.DEVANAGARI => Devanagari
  | Types.JAPANESE => Japanese
  | Types.KOREAN => Korean
  end.

(** The delegates hold what their initializers build: the client of a
    delegate is a client for that delegate's script, and it was built before
    the clients still to come. *)
Definition wellFormed (st : Store) : Prop :=
  forall s recognizer,
    delegate s st = Some recognizer ->
    model recognizer = s /\ serial recognizer < constructed st.

Definition isClose (ev : Event) : bool :=
  match ev with Close _ _ => true | _ => false end.

Definition isInitialized (st : Store) (s : Script) : bool :=
  match delegate s st with Some _ => true | None => false end.

(** The locator as [extractTextFromImage] hands it to the image loader. *)
Definition uriOf (uriString : string) : Uri :=
  if prefix "content://" uriString then Uri_parse uriString
  else Uri_fromFile uriString.

(** The vendor calls of one request, decided by the environment and by the
    store the request starts from.  Without a React context, or for a path
    that names no file, there is none.  Otherwise the image is loaded; if
    that returns, the delegate of the script [s] is read: an initialized one
    hands its client to [process] and nothing is built; an uninitialized one
    has a client built first, and [process] runs on that new client unless
    the build raises.  A call that raises is the last one. *)
Definition requestCalls (env : Env) (uriString : string) (s : Script) (st : Store)
    (calls : list Event) : Prop :=
  let uri := uriOf uriString in
  (calls = []
   /\ (reactContext env = None
       \/ (prefix "content://" uriString = false /\ File_exists env uriString = false)))
  \/ (exists context,
        reactContext env = Some context
        /\ (prefix "content://" uriString = true \/ File_exists env uriString = true)
        /\ ((exists e,
               InputImage_fromFilePath env context uri = Throws e
               /\ calls = [FromFilePath uri (Throws e)])
            \/ (exists image,
                  InputImage_fromFilePath env context uri = Returns image
                  /\ ((exists recognizer,
                         delegate s st = Some recognizer
                         /\ calls = [FromFilePath uri (Returns image);
                                     Process recognizer image
                                       (process env recognizer image)])
                      \/ (exists e,
                            delegate s st = None
                            /\ getClient_failure env s = Some e
                            /\ calls = [FromFilePath uri (Returns image);
                                        GetClient s (Throws e)])
                      \/ (delegate s st = None
                          /\ getClient_failure env s = None
                          /\ calls = [FromFilePath uri (Returns image);
                                      GetClient s
                                        (Returns {| model := s; serial := constructed st |});
                                      Process {| model := s; serial := constructed st |}
                                        image
                                        (process env {| model := s;
                                                        serial := constructed st |}
                                                 image)]))))).

Definition canBuild (env : Env) (s : Script) : bool :=
  match getClient_failure env s with Some _ => false | None => true end.

(** ** Proof automation *)

(** One case split on the innermost scrutinee of the goal. *)
Ltac step_run :=
  match goal with
  | |- context [match ?x with _ => _ end] =>
      lazymatch x with
      | context [match _ with _ => _ end] => fail
      | _ => destruct x eqn:?
      end
  | |- context [if ?x then _ else _] =>
      lazymatch x with
      | context [if _ then _ else _] => fail
      | _ => destruct x eqn:?
      end
  end; cbn in *.

Create Rewrite HintDb selector.

(** Every path through [extractTextFromImage]: the context, the locator,
    the image, the delegate, the client factory, the recognition task.  The
    rewrite database [selector] says which lazy property the selector reads. *)
Ltac run_extract :=
  unfold extractTextFromImage, tryCatch, bind, requireContext, resolveUri,
    fromFilePath, processImage, call, ret, throw;
  autorewrite with selector;
  unfold lazyValue, call, ret; cbn;
  repeat step_run.

(** ** Strings *)

Lemma replace_at_prefix (searchValue replaceValue str : string) :
  prefix searchValue str = true ->
  Str.replace searchValue replaceValue str
  = (replaceValue ++ Str.drop (String.length searchValue) str)%string.
Proof.
  intros H. destruct str; cbn [Str.replace]; rewrite H; reflexivity.
Qed.

Lemma replace_without_occurrence (searchValue replaceValue str : string) :
  Str.includes searchValue str = false ->
  Str.replace searchValue replaceValue str = str.
Proof.
  induction str as [|c rest IH]; cbn [Str.replace Str.includes].
  - destruct (prefix searchValue ""); [discriminate | reflexivity].
  - destruct (prefix searchValue (String c rest)); [discriminate |].
    intros H. rewrite (IH H). reflexivity.
Qed.

Lemma prefix_append (p rest : string) : prefix p (p ++ rest)%string = true.
Proof.
  induction p as [|c p IH]; simpl.
  - destruct rest; reflexivity.
  - destruct (ascii_dec c c) as [_|n]; [exact IH | contradiction].
Qed.

Lemma drop_append (p rest : string) :
  Str.drop (String.length p) (p ++ rest)%string = rest.
Proof.
  induction p as [|c p IH]; simpl; [reflexivity | exact IH].
Qed.

Lemma lowercase_cons (c : ascii) (rest : string) :
  Str.lowercase (String c rest)
  = if prefix Str.kelvin (String c rest)
    then String "k" (Str.lowercase (Str.drop 2 rest))
    else String (Str.lowercaseChar c) (Str.lowercase rest).
Proof.
  destruct c as [[] [] [] [] [] [] [] []]; try reflexivity.
  destruct rest as [|c1 r1]; [reflexivity|].
  destruct c1 as [[] [] [] [] [] [] [] []]; try reflexivity.
  destruct r1 as [|c2 r2]; [reflexivity|].
  destruct c2 as [[] [] [] [] [] [] [] []]; try reflexivity.
  cbn. destruct r2; reflexivity.
Qed.

Lemma lowercaseChar_idempotent (c : ascii) :
  Str.lowercaseChar (Str.lowercaseChar c) = Str.lowercaseChar c.
Proof.
  destruct c as [[] [] [] [] [] [] [] []]; reflexivity.
Qed.

(** Lowercasing a byte yields none of the three bytes of the Kelvin sign
    unless it was that byte. *)
Lemma lowercaseChar_kelvin_byte (c d : ascii) :
  In d ["226"; "132"; "170"]%char -> Str.lowercaseChar c = d -> c = d.
Proof.
  intros [<-|[<-|[<-|[]]]];
    destruct c as [[] [] [] [] [] [] [] []]; intros H;
    first [reflexivity | discriminate H].
Qed.

Lemma prefix_kelvin_inv (s : string) :
  prefix Str.kelvin s = true ->
  exists rest, s = String "226" (String "132" (String "170" rest)).
Proof.
  unfold Str.kelvin.
  destruct s as [|a [|b [|c rest]]]; cbn [prefix];
    repeat match goal with
    | |- context [ascii_dec ?x ?y] => destruct (ascii_dec x y) as [<-|]
    end; try discriminate.
  eauto.
Qed.

Lemma lowercase_kelvin_tail (s t : string) :
  Str.lowercase s = String "132" (String "170" t) ->
  exists rest, s = String "132" (String "170" rest).
Proof.
  destruct s as [|a s1]; [discriminate|].
  rewrite lowercase_cons.
  destruct (prefix Str.kelvin (String a s1)); [discriminate|].
  intros H. injection H as Ha H1.
  apply lowercaseChar_kelvin_byte in Ha; [subst a | cbn; auto].
  destruct s1 as [|b s2]; [discriminate|].
  rewrite lowercase_cons in H1.
  destruct (prefix Str.kelvin (String b s2)); [discriminate|].
  injection H1 as Hb _.
  apply lowercaseChar_kelvin_byte in Hb; [subst b | cbn; auto].
  eauto.
Qed.

Lemma drop_length (n : nat) (s : string) :
  String.length (Str.drop n s) <= String.length s.
Proof.
  revert s. induction n as [|n IH]; intros [|c s]; cbn; try lia.
  specialize (IH s). lia.
Qed.

(** Lowercasing twice is lowercasing once: by induction on the length, as a
    Kelvin sign takes three bytes at a time. *)
Lemma lowercase_idempotent (s : string) :
  Str.lowercase (Str.lowercase s) = Str.lowercase s.
Proof.
  remember (String.length s) as n eqn:Hn. revert s Hn.
  induction n as [n IH] using lt_wf_ind. intros [|c rest] Hn; [reflexivity|].
  rewrite (lowercase_cons c rest).
  destruct (prefix Str.kelvin (String c rest)) eqn:K.
  - rewrite lowercase_cons. cbn [prefix Str.kelvin].
    destruct (ascii_dec "226" "k") as [E|_]; [discriminate E|].
    f_equal. apply (IH (String.length (Str.drop 2 rest))); [|reflexivity].
    pose proof (drop_length 2 rest). cbn in Hn. lia.
  - rewrite lowercase_cons.
    destruct (prefix Str.kelvin (String (Str.lowercaseChar c) (Str.lowercase rest)))
      eqn:K2.
    + exfalso. apply prefix_kelvin_inv in K2. destruct K2 as [t K2].
      injection K2 as Hc Hrest.
      apply lowercaseChar_kelvin_byte in Hc; [subst c | cbn; auto].
      apply lowercase_kelvin_tail in Hrest. destruct Hrest as [r ->].
      cbn in K. destruct r; discriminate K.
    + rewrite lowercaseChar_idempotent. f_equal.
      apply (IH (String.length rest)); [|reflexivity]. cbn in Hn. lia.
Qed.

(** ** [index.ts]: what reaches the native module *)

(** A locator that begins with [file://] is dispatched without that prefix,
    the rest untouched. *)
Lemma processedUri_strips_leading_scheme (rest : string) :
  Index.processedUri ("file://" ++ rest) = rest.
Proof.
  unfold Index.processedUri.
  rewrite replace_at_prefix by apply prefix_append.
  apply (drop_append "file://").
Qed.

(** A locator in which [file://] does not occur is dispatched as it is. *)
Lemma processedUri_without_scheme (uri : string) :
  Str.includes "file://" uri = false -> Index.processedUri uri = uri.
Proof.
  apply replace_without_occurrence.
Qed.

Example dispatch_file_uri :
  Index.extractTextFromImage (Index.recorder RecognitionOptionsRecord string)
    "file:///tmp/receipt.jpg" (Some Samples.chineseOptions)
  = inl ("/tmp/receipt.jpg", Some Samples.chineseOptions).
Proof. reflexivity. Qed.

Example dispatch_plain_path :
  Index.extractTextFromImage (Index.recorder RecognitionOptionsRecord string)
    "/tmp/receipt.jpg" None
  = inl ("/tmp/receipt.jpg", None).
Proof. reflexivity. Qed.

(** C2 (the code departs from the claim).  The claim: a locator that does not
    begin with [file://] is dispatched unchanged.  [uri.replace('file://', '')]
    is not anchored at the start of the string: on the locator
    [content://provider/file://img.jpg], which does not begin with [file://],
    the native module receives [content://provider/img.jpg]. *)
Theorem extractTextFromImage_strips_inner_scheme :
  prefix "file://" "content://provider/file://img.jpg" = false
  /\ Index.extractTextFromImage (Index.recorder RecognitionOptionsRecord string)
       "content://provider/file://img.jpg" None
     = inl ("content://provider/img.jpg", None).
Proof.
  split; reflexivity.
Qed.

(** ** The recognizer selector *)

Lemma getRecognizerForScript_reads_selected (env : Env) (script : option string) :
  getRecognizerForScript env script = lazyValue env (selectedScript script).
Proof.
  unfold getRecognizerForScript, selectedScript.
  destruct (option_map Str.lowercase script) as [tag|]; [|reflexivity].
  destruct (tag =? "chinese")%string; [reflexivity|].
  destruct (tag =? "devanagari")%string; [reflexivity|].
  destruct (tag =? "japanese")%string; [reflexivity|].
  destruct (tag =? "korean")%string; reflexivity.
Qed.

#[global] Hint Rewrite getRecognizerForScript_reads_selected : selector.

Lemma selectedScript_unrecognized (s : string) :
  ~ In (Str.lowercase s) recognizedTags -> selectedScript (Some s) = Latin.
Proof.
  unfold selectedScript, recognizedTags. cbn [option_map In]. intros H.
  repeat match goal with
  | |- context [String.eqb ?a ?b] =>
      destruct (String.eqb_spec a b) as [E|_];
      [exfalso; apply H; rewrite E; tauto |]
  end.
  reflexivity.
Qed.

(** Reading a lazy property raises only when the delegate is not initialized
    and building the client raises. *)
Lemma lazyValue_throws (env : Env) (s : Script) (st : Store) (e : Exception) :
  outcome (lazyValue env s st) = Throws e
  <-> delegate s st = None /\ getClient_failure env s = Some e.
Proof.
  unfold lazyValue.
  destruct (delegate s st) as [r|]; cbn.
  - split; [discriminate | intros [H _]; discriminate].
  - destruct (getClient_failure env s) as [e'|]; cbn.
    + split; [intros H; injection H as ->; auto | intros [_ H]; congruence].
    + split; [discriminate | intros [_ H]; discriminate].
Qed.

Example select_chinese :
  getRecognizerForScript (Samples.device [] (TaskSuccess Samples.receipt))
    (Some "chinese") initialStore
  = {| outcome := Returns {| model := Chinese; serial := 0 |};
       store := initialize Chinese {| model := Chinese; serial := 0 |} initialStore;
       trace := [GetClient Chinese (Returns {| model := Chinese; serial := 0 |})] |}.
Proof. reflexivity. Qed.

Example select_unknown :
  outcome (getRecognizerForScript (Samples.device [] (TaskSuccess Samples.receipt))
             (Some "klingon") initialStore)
  = Returns {| model := Latin; serial := 0 |}.
Proof. reflexivity. Qed.

Example select_with_kelvin_sign :
  outcome (getRecognizerForScript (Samples.device [] (TaskSuccess Samples.receipt))
             (Some (Str.kelvin ++ "OREAN")%string) initialStore)
  = Returns {| model := Korean; serial := 0 |}.
Proof. reflexivity. Qed.

(** C3 (counterexample).  [CHINESE] is none of the four tags [chinese],
    [devanagari], [japanese], [korean], so the claim sends it to the Latin
    recognizer; the selector lowercases it first and hands out the Chinese
    one. *)
Lemma uppercase_tag_does_not_fall_back :
  let env := Samples.device [] (TaskSuccess Samples.receipt) in
  ~ In "CHINESE" recognizedTags
  /\ outcome (getRecognizerForScript env (Some "CHINESE") initialStore)
     = Returns {| model := Chinese; serial := 0 |}
  /\ outcome (latinRecognizer env initialStore)
     = Returns {| model := Latin; serial := 0 |}
  /\ getRecognizerForScript env (Some "CHINESE") initialStore
     <> latinRecognizer env initialStore.
Proof.
  cbv zeta. repeat split; try reflexivity.
  - cbn. intros [H|[H|[H|[H|[]]]]]; discriminate H.
  - discriminate.
Qed.

(** C3 (amended).  The selector decides on the lowercase form of the script
    value.  With no script, or with a value whose lowercase form is none of
    [chinese], [devanagari], [japanese], [korean], it reads the Latin
    recognizer property, and the only exception that read can raise is the one
    raised by building the Latin client; a value whose lowercase form is one
    of the four tags reads that script's property. *)
Theorem getRecognizerForScript_defaults_to_latin (env : Env) :
  getRecognizerForScript env None = latinRecognizer env
  /\ (forall s, ~ In (Str.lowercase s) recognizedTags ->
        getRecognizerForScript env (Some s) = latinRecognizer env
        /\ forall st e,
             outcome (getRecognizerForScript env (Some s) st) = Throws e ->
             latin st = None /\ getClient_failure env Latin = Some e)
  /\ (forall s, Str.lowercase s = "chinese" ->
        getRecognizerForScript env (Some s) = chineseRecognizer env)
  /\ (forall s, Str.lowercase s = "devanagari" ->
        getRecognizerForScript env (Some s) = devanagariRecognizer env)
  /\ (forall s, Str.lowercase s = "japanese" ->
        getRecognizerForScript env (Some s) = japaneseRecognizer env)
  /\ (forall s, Str.lowercase s = "korean" ->
        getRecognizerForScript env (Some s) = koreanRecognizer env).
Proof.
  split; [reflexivity|].
  split.
  { intros s H.
    assert (E : getRecognizerForScript env (Some s) = latinRecognizer env).
    { rewrite getRecognizerForScript_reads_selected.
      rewrite (selectedScript_unrecognized s H). reflexivity. }
    split; [exact E|].
    intros st e. rewrite E. unfold latinRecognizer.
    intros T. apply lazyValue_throws in T. exact T. }
  repeat split; intros s H; unfold getRecognizerForScript;
    cbn [option_map]; rewrite H; reflexivity.
Qed.

(** C10.  The selector does not look at the case of its argument: a script
    value and its lowercase form select the same recognizer, from every
    state of the module, with the same effect on that state. *)
Theorem getRecognizerForScript_ignores_case (env : Env) (s : string) (st : Store) :
  getRecognizerForScript env (Some s) st
  = getRecognizerForScript env (Some (Str.lowercase s)) st.
Proof.
  unfold getRecognizerForScript. cbn [option_map].
  rewrite lowercase_idempotent. reflexivity.
Qed.

Example chinese_in_capitals :
  getRecognizerForScript Samples.faulty (Some "CHINESE") initialStore
  = getRecognizerForScript Samples.faulty (Some "chinese") initialStore.
Proof. reflexivity. Qed.

(** ** The supported-languages query *)



(** ** [extractTextFromImage] *)

Example extract_receipt :
  extractTextFromImage (Samples.device ["/tmp/receipt.jpg"] (TaskSuccess Samples.receipt))
    "/tmp/receipt.jpg" (Some Samples.chineseOptions) initialStore
  = let client := {| model := Chinese; serial := 0 |} in
    {| outcome := Returns (Resolved ["TOTAL"; "12.50 EUR"]);
       store := initialize Chinese client initialStore;
       trace := [FromFilePath (Uri_fromFile "/tmp/receipt.jpg") (Returns (ImageData 0));
                 GetClient Chinese (Returns client);
                 Process client (ImageData 0) (Returns (TaskSuccess Samples.receipt))] |}.
Proof. reflexivity. Qed.

Example extract_receipt_from_javascript :
  outcome (Index.extractTextFromImage
             (androidModule (Samples.device ["/tmp/receipt.jpg"] (TaskSuccess Samples.receipt)))
             "file:///tmp/receipt.jpg" (Some Samples.chineseOptions) initialStore)
  = Returns (Resolved ["TOTAL"; "12.50 EUR"]).
Proof. reflexivity. Qed.

Example extract_blank_page :
  extractTextFromImage (Samples.device ["/tmp/blank.png"] (TaskSuccess Samples.blankPage))
    "/tmp/blank.png" None initialStore
  = let client := {| model := Latin; serial := 0 |} in
    {| outcome := Returns (Resolved []);
       store := initialize Latin client initialStore;
       trace := [FromFilePath (Uri_fromFile "/tmp/blank.png") (Returns (ImageData 0));
                 GetClient Latin (Returns client);
                 Process client (ImageData 0) (Returns (TaskSuccess Samples.blankPage))] |}.
Proof. reflexivity. Qed.

Example extract_task_failure :
  outcome (extractTextFromImage Samples.faulty "/tmp/receipt.jpg" None initialStore)
  = Returns (Rejected {| code := "TEXT_RECOGNITION_ERROR";
                         codedMessage := "Text recognition failed";
                         cause := {| message := None |} |}).
Proof. reflexivity. Qed.

(** C1 (counterexample).  The locator [content://media/external/images/404]
    does not resolve: loading it fails.  The module makes no check of its own
    before it hands the locator to the vendor's [InputImage.fromFilePath], and
    the rejection that follows carries the catch-all code with the message
    [Unknown error], the very rejection a request for an existing, readable
    file gets while the module has no React context. *)
Lemma content_locator_reaches_the_vendor_unchecked :
  let env := Samples.device ["/tmp/receipt.jpg"] (TaskSuccess Samples.receipt) in
  let uriString := "content://media/external/images/404" in
  InputImage_fromFilePath env TheReactContext (Uri_parse uriString)
  = Throws Samples.IOException
  /\ extractTextFromImage env uriString None initialStore
     = {| outcome := Returns (Rejected {| code := "UNKNOWN_ERROR";
                                          codedMessage := "Unknown error";
                                          cause := Samples.IOException |});
          store := initialStore;
          trace := [FromFilePath (Uri_parse uriString) (Throws Samples.IOException)] |}
  /\ outcome (extractTextFromImage
                (Samples.detached ["/tmp/receipt.jpg"] (TaskSuccess Samples.receipt))
                "/tmp/receipt.jpg" None initialStore)
     = outcome (extractTextFromImage env uriString None initialStore)
  /\ ~ rejectedAsNotFound uriString (extractTextFromImage env uriString None initialStore).
Proof.
  cbv zeta. repeat split.
  intros (error & _ & _ & H). discriminate H.
Qed.

(** C1 (amended).  A locator that does not begin with [content://] and
    names no existing file is rejected with code [UNKNOWN_ERROR] before any
    vendor call is made, with the message [File not found: <locator>] when
    the module has its React context.  Any other locator is handed to the
    vendor's [InputImage.fromFilePath] without a check by the module; when
    that call raises, the promise is rejected with code [UNKNOWN_ERROR] and
    the vendor's message, or [Unknown error] when it has none.  In both cases
    no recognizer is built or run and the module's state is as before. *)
Theorem missing_file_is_rejected_before_any_vendor_call
    (env : Env) (uriString : string) (options : option RecognitionOptionsRecord)
    (st : Store) :
  let r := extractTextFromImage env uriString options st in
  (prefix "content://" uriString = false ->
   File_exists env uriString = false ->
   exists error,
     r = {| outcome := Returns (Rejected error); store := st; trace := [] |}
     /\ code error = "UNKNOWN_ERROR"
     /\ (reactContext env <> None ->
         codedMessage error = ("File not found: " ++ uriString)%string))
  /\ (forall context uri e,
        reactContext env = Some context ->
        (prefix "content://" uriString = true /\ uri = Uri_parse uriString)
        \/ (prefix "content://" uriString = false
            /\ File_exists env uriString = true
            /\ uri = Uri_fromFile uriString) ->
        InputImage_fromFilePath env context uri = Throws e ->
        r = {| outcome := Returns (Rejected
                 {| code := "UNKNOWN_ERROR";
                    codedMessage := messageOr e "Unknown error";
                    cause := e |});
               store := st;
               trace := [FromFilePath uri (Throws e)] |}).
Proof.
  intros r. subst r.
  unfold extractTextFromImage, tryCatch, bind, requireContext, resolveUri,
    fromFilePath, call, ret, throw.
  split.
  - intros Hp Hf. rewrite Hp, Hf.
    destruct (reactContext env); cbn; eexists;
      (split; [reflexivity |]); (split; [reflexivity |]);
      intros H; [reflexivity | contradiction H; reflexivity].
  - intros context uri e Hctx [[Hp ->] | (Hp & Hf & ->)] Hl;
      rewrite Hctx, Hp, ?Hf; cbn; rewrite Hl; reflexivity.
Qed.

(** C1 (amended), at a missing file on a device with a React context. *)
Lemma missing_file_is_rejected_before_any_vendor_call_witness :
  let env := Samples.device ["/tmp/receipt.jpg"] (TaskSuccess Samples.receipt) in
  prefix "content://" "/tmp/missing.jpg" = false
  /\ File_exists env "/tmp/missing.jpg" = false
  /\ exists error,
       extractTextFromImage env "/tmp/missing.jpg" None initialStore
       = {| outcome := Returns (Rejected error); store := initialStore; trace := [] |}
       /\ code error = "UNKNOWN_ERROR"
       /\ (reactContext env <> None ->
           codedMessage error = "File not found: /tmp/missing.jpg").
Proof.
  cbv zeta.
  split; [reflexivity|]. split; [reflexivity|].
  exact (proj1 (missing_file_is_rejected_before_any_vendor_call
                  (Samples.device ["/tmp/receipt.jpg"] (TaskSuccess Samples.receipt))
                  "/tmp/missing.jpg" None initialStore) eq_refl eq_refl).
Defined.

Example missing_file_run :
  extractTextFromImage (Samples.device ["/tmp/receipt.jpg"] (TaskSuccess Samples.receipt))
    "/tmp/missing.jpg" (Some Samples.chineseOptions) initialStore
  = {| outcome := Returns (Rejected
         {| code := "UNKNOWN_ERROR";
            codedMessage := "File not found: /tmp/missing.jpg";
            cause := {| message := Some "File not found: /tmp/missing.jpg" |} |});
       store := initialStore;
       trace := [] |}.
Proof. reflexivity. Qed.

(** C7 (counterexample).  The two codes do not tell a resource error from a
    recognition error, and one failure is not reported at all.  A missing
    file and a recognizer model that cannot be built are both rejected with
    [UNKNOWN_ERROR]; a task that ends cancelled runs neither listener, and
    the promise is left unsettled. *)
Lemma codes_do_not_follow_the_taxonomy :
  outcome (extractTextFromImage
             (Samples.device ["/tmp/receipt.jpg"] (TaskSuccess Samples.receipt))
             "/tmp/missing.jpg" None initialStore)
  = Returns (Rejected {| code := "UNKNOWN_ERROR";
                         codedMessage := "File not found: /tmp/missing.jpg";
                         cause := {| message := Some "File not found: /tmp/missing.jpg" |} |})
  /\ outcome (extractTextFromImage Samples.faulty "/tmp/receipt.jpg"
                (Some Samples.koreanOptions) initialStore)
     = Returns (Rejected {| code := "UNKNOWN_ERROR";
                            codedMessage := "model unavailable";
                            cause := {| message := Some "model unavailable" |} |})
  /\ outcome (extractTextFromImage (Samples.device ["/tmp/receipt.jpg"] TaskCanceled)
                "/tmp/receipt.jpg" None initialStore)
     = Returns Unsettled
  /\ ~ (exists error,
          outcome (extractTextFromImage (Samples.device ["/tmp/receipt.jpg"] TaskCanceled)
                     "/tmp/receipt.jpg" None initialStore)
          = Returns (Rejected error)).
Proof.
  repeat split. intros [error H]. discriminate H.
Qed.

(** C7 (amended).  What each failure of a request comes to.  Whatever is
    raised before the task is handed out rejects the promise with the
    catch-all code [UNKNOWN_ERROR]: a missing React context, a missing file,
    an image that does not load, a recognizer that cannot be built, a call
    of [process] that raises.  A task that fails rejects it with
    [TEXT_RECOGNITION_ERROR].  The message is the exception's, or a fixed
    text when it has none.  A task that ends cancelled is not reported: the
    promise stays unsettled.  The promise is resolved only when nothing
    failed, and no vendor call is made a second time. *)
Theorem every_failure_rejects_with_a_code
    (env : Env) (uriString : string) (options : option RecognitionOptionsRecord)
    (st : Store) :
  let r := extractTextFromImage env uriString options st in
  let unknown e := Rejected {| code := "UNKNOWN_ERROR";
                               codedMessage := messageOr e "Unknown error";
                               cause := e |} in
  let failed e := Rejected {| code := "TEXT_RECOGNITION_ERROR";
                              codedMessage := messageOr e "Text recognition failed";
                              cause := e |} in
  (reactContext env = None -> outcome r = Returns (unknown NullPointerException))
  /\ (forall context,
        reactContext env = Some context ->
        (prefix "content://" uriString = false ->
         File_exists env uriString = false ->
         outcome r
         = Returns (unknown {| message := Some ("File not found: " ++ uriString)%string |}))
        /\ (prefix "content://" uriString = true \/ File_exists env uriString = true ->
            match InputImage_fromFilePath env context (uriOf uriString) with
            | Throws e => outcome r = Returns (unknown e)
            | Returns image =>
                match outcome (getRecognizerForScript env (scriptOf options) st) with
                | Throws e => outcome r = Returns (unknown e)
                | Returns recognizer =>
                    match process env recognizer image with
                    | Throws e => outcome r = Returns (unknown e)
                    | Returns (TaskFailure e) => outcome r = Returns (failed e)
                    | Returns TaskCanceled => outcome r = Returns Unsettled
                    | Returns (TaskSuccess visionText) =>
                        outcome r = Returns (Resolved (map text (textBlocks visionText)))
                    end
                end
            end))
  /\ match outcome r with
     | Returns (Resolved _) =>
         reactContext env <> None
         /\ (prefix "content://" uriString = true \/ File_exists env uriString = true)
         /\ forallb succeeded (trace r) = true
     | Returns (Rejected error) =>
         (Rejected error = unknown (cause error)
          /\ forallb (fun ev => negb (handsOutTask ev)) (trace r) = true)
         \/ (Rejected error = failed (cause error)
             /\ exists recognizer image,
                  In (Process recognizer image (Returns (TaskFailure (cause error))))
                     (trace r))
     | Returns Unsettled =>
         exists recognizer image,
           In (Process recognizer image (Returns TaskCanceled)) (trace r)
     | Throws _ => False
     end
  /\ length (filter isFromFilePath (trace r)) <= 1
  /\ length (filter isGetClient (trace r)) <= 1
  /\ length (filter isProcess (trace r)) <= 1.
Proof.
  intros r unknown failed. subst r unknown failed.
  split; [| split; [| split]].
  - intros Hctx.
    unfold extractTextFromImage, tryCatch, bind, requireContext, throw, ret.
    rewrite Hctx. reflexivity.
  - intros context Hctx. split.
    + intros Hp Hf.
      unfold extractTextFromImage, tryCatch, bind, requireContext, resolveUri, throw, ret.
      rewrite Hctx, Hp, Hf. reflexivity.
    + intros Hloc.
      assert (E : resolveUri env uriString st
                  = {| outcome := Returns (uriOf uriString); store := st; trace := [] |}).
      { unfold resolveUri, uriOf, ret.
        destruct (prefix "content://" uriString); [reflexivity|].
        destruct Hloc as [Hloc|Hloc]; [discriminate | rewrite Hloc; reflexivity]. }
      unfold extractTextFromImage, tryCatch, bind, requireContext, ret.
      rewrite Hctx, E. unfold fromFilePath, processImage, call. cbn.
      destruct (InputImage_fromFilePath env context (uriOf uriString)) as [image|e];
        cbn; [|reflexivity].
      destruct (getRecognizerForScript env (scriptOf options) st)
        as [[recognizer|e] st1 t1]; cbn; [|reflexivity].
      destruct (process env recognizer image) as [[visionText|e|]|e]; reflexivity.
  - run_extract.
    all: repeat split; auto; try discriminate.
    all: try (right; apply Bool.negb_false_iff; assumption).
    all: first [ left; split; reflexivity
               | right; split; [reflexivity|]; eauto 6 using in_eq, in_cons
               | eauto 6 using in_eq, in_cons ].
  - run_extract; repeat split; cbn; lia.
Qed.

(** C7 (amended), at the three failures of the counterexample and at a
    failing task. *)
Lemma every_failure_rejects_with_a_code_witness :
  outcome (extractTextFromImage
             (Samples.detached ["/tmp/receipt.jpg"] (TaskSuccess Samples.receipt))
             "/tmp/receipt.jpg" None initialStore)
  = Returns (Rejected {| code := "UNKNOWN_ERROR";
                         codedMessage := "Unknown error";
                         cause := NullPointerException |})
  /\ outcome (extractTextFromImage Samples.faulty "/tmp/receipt.jpg"
                (Some Samples.koreanOptions) initialStore)
     = Returns (Rejected {| code := "UNKNOWN_ERROR";
                            codedMessage := "model unavailable";
                            cause := {| message := Some "model unavailable" |} |})
  /\ outcome (extractTextFromImage Samples.faulty "/tmp/receipt.jpg" None initialStore)
     = Returns (Rejected {| code := "TEXT_RECOGNITION_ERROR";
                            codedMessage := "Text recognition failed";
                            cause := {| message := None |} |}).
Proof.
  split; [| split].
  - exact (proj1 (every_failure_rejects_with_a_code
                    (Samples.detached ["/tmp/receipt.jpg"] (TaskSuccess Samples.receipt))
                    "/tmp/receipt.jpg" None initialStore) eq_refl).
  - exact (proj2 (proj1 (proj2 (every_failure_rejects_with_a_code
                    Samples.faulty "/tmp/receipt.jpg" (Some Samples.koreanOptions)
                    initialStore)) TheReactContext eq_refl) (or_intror eq_refl)).
  - exact (proj2 (proj1 (proj2 (every_failure_rejects_with_a_code
                    Samples.faulty "/tmp/receipt.jpg" None
                    initialStore)) TheReactContext eq_refl) (or_intror eq_refl)).
Defined.

(** In a run, a recognition task that completed with a text settles the
    promise with the texts of its blocks. *)
Lemma successful_task_resolves
    (env : Env) (uriString : string) (options : option RecognitionOptionsRecord)
    (st : Store) (recognizer : TextRecognizer) (image : InputImage) (visionText : Text) :
  In (Process recognizer image (Returns (TaskSuccess visionText)))
     (trace (extractTextFromImage env uriString options st)) ->
  outcome (extractTextFromImage env uriString options st)
  = Returns (Resolved (map text (textBlocks visionText))).
Proof.
  run_extract; intros H;
    repeat (destruct H as [H|H]; [try discriminate H | ]); try contradiction;
    injection H as <- <- <-; reflexivity.
Qed.

(** A resolved promise carries the texts of the blocks of a task that
    completed with a text. *)
Lemma resolved_by_successful_task
    (env : Env) (uriString : string) (options : option RecognitionOptionsRecord)
    (st : Store) (texts : list string) :
  outcome (extractTextFromImage env uriString options st) = Returns (Resolved texts) ->
  exists recognizer image visionText,
    In (Process recognizer image (Returns (TaskSuccess visionText)))
       (trace (extractTextFromImage env uriString options st))
    /\ texts = map text (textBlocks visionText).
Proof.
  run_extract; intros H; try discriminate H;
    injection H as <-; do 3 eexists; (split; [|reflexivity]);
    eauto using in_eq, in_cons.
Qed.

Lemma unsettled_by_canceled_task
    (env : Env) (uriString : string) (options : option RecognitionOptionsRecord)
    (st : Store) :
  outcome (extractTextFromImage env uriString options st) = Returns Unsettled
  <-> exists recognizer image,
        In (Process recognizer image (Returns TaskCanceled))
           (trace (extractTextFromImage env uriString options st)).
Proof.
  split.
  - run_extract; intros H; try discriminate H; do 2 eexists; cbn; eauto 6.
  - run_extract; intros (recognizer & image & H);
      repeat (destruct H as [H|H]; [try discriminate H | ]); try contradiction;
      reflexivity.
Qed.

(** C4 (counterexample).  A request that is neither resolved nor rejected:
    the image loads and the recognizer runs, but its task ends cancelled, for
    which the module registers no listener. *)
Lemma canceled_task_settles_nothing :
  let r := extractTextFromImage (Samples.device ["/tmp/receipt.jpg"] TaskCanceled)
             "/tmp/receipt.jpg" None initialStore in
  outcome r = Returns Unsettled
  /\ trace r = [FromFilePath (Uri_fromFile "/tmp/receipt.jpg") (Returns (ImageData 0));
                GetClient Latin (Returns {| model := Latin; serial := 0 |});
                Process {| model := Latin; serial := 0 |} (ImageData 0)
                  (Returns TaskCanceled)]
  /\ ~ ((exists texts, outcome r = Returns (Resolved texts))
        \/ (exists error, outcome r = Returns (Rejected error))).
Proof.
  cbv zeta. split; [reflexivity|]. split; [reflexivity|].
  intros [[texts H]|[error H]]; discriminate H.
Qed.

(** C4 (amended).  There is no partial success.  A request that gets as far
    as the recognizer, and whose task completes with a text, resolves the
    promise with the texts of all blocks of that text: with the empty list
    when it has no blocks.  The promise is resolved in no other case and with
    nothing else.  Short of that it is rejected, except that a task which
    ends cancelled leaves it unsettled, and nothing else does. *)
Theorem no_partial_success
    (env : Env) (uriString : string) (options : option RecognitionOptionsRecord)
    (st : Store) :
  let r := extractTextFromImage env uriString options st in
  (forall context image recognizer visionText,
     reactContext env = Some context ->
     prefix "content://" uriString = true \/ File_exists env uriString = true ->
     InputImage_fromFilePath env context (uriOf uriString) = Returns image ->
     outcome (getRecognizerForScript env (scriptOf options) st) = Returns recognizer ->
     process env recognizer image = Returns (TaskSuccess visionText) ->
     outcome r = Returns (Resolved (map text (textBlocks visionText)))
     /\ (textBlocks visionText = [] -> outcome r = Returns (Resolved [])))
  /\ (forall texts,
        outcome r = Returns (Resolved texts) ->
        exists recognizer image visionText,
          In (Process recognizer image (Returns (TaskSuccess visionText))) (trace r)
          /\ texts = map text (textBlocks visionText))
  /\ (outcome r = Returns Unsettled
      <-> exists recognizer image,
            In (Process recognizer image (Returns TaskCanceled)) (trace r))
  /\ ((exists texts, outcome r = Returns (Resolved texts))
      \/ (exists error, outcome r = Returns (Rejected error))
      \/ outcome r = Returns Unsettled).
Proof.
  intros r. subst r.
  split; [| split; [| split]].
  - intros context image recognizer visionText Hctx Hloc Hl Hr Hv.
    assert (E : outcome (extractTextFromImage env uriString options st)
                = Returns (Resolved (map text (textBlocks visionText)))).
    { assert (U : resolveUri env uriString st
                  = {| outcome := Returns (uriOf uriString); store := st; trace := [] |}).
      { unfold resolveUri, uriOf, ret.
        destruct (prefix "content://" uriString); [reflexivity|].
        destruct Hloc as [Hloc|Hloc]; [discriminate | rewrite Hloc; reflexivity]. }
      unfold extractTextFromImage, tryCatch, bind, requireContext, ret.
      rewrite Hctx, U. unfold fromFilePath, processImage, call. cbn.
      rewrite Hl. cbn.
      destruct (getRecognizerForScript env (scriptOf options) st) as [o st1 t1].
      cbn in Hr. subst o. cbn. rewrite Hv. reflexivity. }
    split; [exact E|]. intros Hnone. rewrite E, Hnone. reflexivity.
  - apply resolved_by_successful_task.
  - apply unsettled_by_canceled_task.
  - run_extract; unfold onSuccess, onFailure, onException; eauto.
Qed.

(** C4 (amended), at a blank page. *)
Lemma no_partial_success_witness :
  outcome (extractTextFromImage
             (Samples.device ["/tmp/blank.png"] (TaskSuccess Samples.blankPage))
             "/tmp/blank.png" None initialStore)
  = Returns (Resolved []).
Proof.
  exact (proj2 (proj1 (no_partial_success
                  (Samples.device ["/tmp/blank.png"] (TaskSuccess Samples.blankPage))
                  "/tmp/blank.png" None initialStore)
                  TheReactContext (ImageData 0) {| model := Latin; serial := 0 |}
                  Samples.blankPage eq_refl (or_intror eq_refl) eq_refl eq_refl eq_refl)
               eq_refl).
Defined.

(** C5.  When the recognition task completes with a text, the promise is
    resolved with one string per block of that text, in the order of the
    blocks: as many strings as blocks, the i-th string being the text of the
    i-th block. *)
Theorem one_string_per_block_in_order
    (env : Env) (uriString : string) (options : option RecognitionOptionsRecord)
    (st : Store) (recognizer : TextRecognizer) (image : InputImage) (visionText : Text) :
  In (Process recognizer image (Returns (TaskSuccess visionText)))
     (trace (extractTextFromImage env uriString options st)) ->
  exists texts,
    outcome (extractTextFromImage env uriString options st) = Returns (Resolved texts)
    /\ length texts = length (textBlocks visionText)
    /\ forall i, nth_error texts i = option_map text (nth_error (textBlocks visionText) i).
Proof.
  intros H. exists (map text (textBlocks visionText)).
  split; [apply (successful_task_resolves _ _ _ _ _ _ _ H) |].
  split; [apply length_map |].
  intros i. apply nth_error_map.
Qed.

(** C5, at a receipt with two blocks. *)
Lemma one_string_per_block_in_order_witness :
  let env := Samples.device ["/tmp/receipt.jpg"] (TaskSuccess Samples.receipt) in
  let r := extractTextFromImage env "/tmp/receipt.jpg" None initialStore in
  In (Process {| model := Latin; serial := 0 |} (ImageData 0)
        (Returns (TaskSuccess Samples.receipt))) (trace r)
  /\ exists texts,
       outcome r = Returns (Resolved texts)
       /\ length texts = 2
       /\ forall i, nth_error texts i
                    = option_map text (nth_error (textBlocks Samples.receipt) i).
Proof.
  cbv zeta.
  assert (H : In (Process {| model := Latin; serial := 0 |} (ImageData 0)
                    (Returns (TaskSuccess Samples.receipt)))
                 (trace (extractTextFromImage
                           (Samples.device ["/tmp/receipt.jpg"] (TaskSuccess Samples.receipt))
                           "/tmp/receipt.jpg" None initialStore))).
  { cbn. right. right. left. reflexivity. }
  split; [exact H |].
  exact (one_string_per_block_in_order _ _ _ _ _ _ _ H).
Defined.

(** ** Teardown *)

Lemma delegate_initialize_same (s : Script) (r : TextRecognizer) (st : Store) :
  delegate s (initialize s r st) = Some r.
Proof. destruct s; reflexivity. Qed.

Lemma delegate_initialize_other (s s' : Script) (r : TextRecognizer) (st : Store) :
  s' <> s -> delegate s' (initialize s r st) = delegate s' st.
Proof. destruct s, s'; intros H; try reflexivity; contradiction H; reflexivity. Qed.

Lemma onDestroy_unfold (env : Env) :
  onDestroy env = closeAllThen env allScripts (callSuper env).
Proof. reflexivity. Qed.

(** One guarded block: it returns whatever happens inside, touches no other
    delegate, and releases its own recognizer. *)
Lemma closeQuietly_spec (env : Env) (s : Script) (st : Store) :
  let r := closeQuietly (lazyValue env s) env st in
  outcome r = Returns tt
  /\ (forall s', s' <> s -> delegate s' (store r) = delegate s' st)
  /\ released env s st (store r) (trace r).
Proof.
  unfold released, closeQuietly, tryCatch, bind, lazyValue, close, call, ret. cbn.
  destruct (delegate s st) as [recognizer|] eqn:D; cbn.
  - destruct (close_failure env recognizer); cbn; rewrite ?D; auto.
  - destruct (getClient_failure env s) as [e|] eqn:G; cbn.
    + rewrite D. auto.
    + destruct (close_failure env _) eqn:C; cbn;
        (split; [reflexivity |]);
        (split; [intros s' N; apply delegate_initialize_other; exact N |]);
        exists {| model := s; serial := constructed st |};
        rewrite delegate_initialize_same, C;
        (split; [reflexivity |]); (split; [reflexivity |]);
        (split; [left; reflexivity | right; left; reflexivity]).
Qed.

(** The guarded blocks for a list of distinct scripts: the continuation runs
    whatever happens, the delegates of other scripts are untouched, and every
    script of the list has its recognizer released. *)
Lemma closeAllThen_spec (env : Env) (rest : M unit) (scripts : list Script) :
  NoDup scripts ->
  forall st, exists st' calls,
    closeAllThen env scripts rest st
    = {| outcome := outcome (rest st');
         store := store (rest st');
         trace := calls ++ trace (rest st') |}
    /\ (forall s, ~ In s scripts -> delegate s st' = delegate s st)
    /\ (forall s, In s scripts -> released env s st st' calls).
Proof.
  induction 1 as [|s scripts Hnotin Hnodup IH]; intros st.
  - exists st, []. cbn. destruct (rest st); cbn.
    split; [reflexivity |]. split; [reflexivity | contradiction].
  - destruct (closeQuietly_spec env s st) as (Hout & Hframe & Hrel).
    cbn [closeAllThen fold_right]. fold (closeAllThen env scripts rest).
    unfold bind.
    destruct (closeQuietly (lazyValue env s) env st) as [o st1 t1].
    cbn in Hout, Hframe, Hrel. subst o.
    destruct (IH st1) as (st' & calls & Hrun & Hframe' & Hrel').
    rewrite Hrun. cbn.
    exists st', (t1 ++ calls).
    split; [rewrite app_assoc; reflexivity |].
    split.
    + intros s' Hs'. cbn in Hs'.
      rewrite Hframe' by tauto. apply Hframe. intros ->. tauto.
    + intros s' [<-|Hin].
      * unfold released in *. rewrite (Hframe' s Hnotin).
        destruct (delegate s st).
        { destruct Hrel; split; [assumption | apply in_or_app; auto]. }
        destruct (getClient_failure env s).
        { destruct Hrel; split; [assumption | apply in_or_app; auto]. }
        destruct Hrel as (recognizer & ? & ? & ? & ?).
        exists recognizer. repeat split; try assumption; apply in_or_app; auto.
      * specialize (Hrel' s' Hin). unfold released in *.
        rewrite Hframe in Hrel' by (intros ->; contradiction).
        destruct (delegate s' st).
        { destruct Hrel'; split; [assumption | apply in_or_app; auto]. }
        destruct (getClient_failure env s').
        { destruct Hrel'; split; [assumption | apply in_or_app; auto]. }
        destruct Hrel' as (recognizer & ? & ? & ? & ?).
        exists recognizer. repeat split; try assumption; apply in_or_app; auto.
Qed.

Lemma allScripts_NoDup : NoDup allScripts.
Proof.
  unfold allScripts.
  repeat (constructor; [cbn; intuition discriminate |]).
  constructor.
Qed.

Lemma allScripts_complete (s : Script) : In s allScripts.
Proof. destruct s; cbn; auto 6. Qed.

Example onDestroy_on_a_faulty_device :
  onDestroy Samples.faulty initialStore
  = let failure := Some {| message := Some "already closed" |} in
    let client (s : Script) (n : nat) := {| model := s; serial := n |} in
    {| outcome := Returns tt;
       store := {| latin := Some (client Latin 0);
                   chinese := Some (client Chinese 1);
                   devanagari := Some (client Devanagari 2);
                   japanese := Some (client Japanese 3);
                   korean := None;
                   constructed := 4 |};
       trace := [GetClient Latin (Returns (client Latin 0));
                 Close (client Latin 0) failure;
                 GetClient Chinese (Returns (client Chinese 1));
                 Close (client Chinese 1) failure;
                 GetClient Devanagari (Returns (client Devanagari 2));
                 Close (client Devanagari 2) failure;
                 GetClient Japanese (Returns (client Japanese 3));
                 Close (client Japanese 3) failure;
                 GetClient Korean (Throws {| message := Some "model unavailable" |})] |}.
Proof. reflexivity. Qed.

(** C8 (counterexample).  [onDestroy] raising: all five recognizers are built
    and closed without an exception, and then the call of the base class's
    [onDestroy], which stands outside every [try], raises on this device. *)
Lemma onDestroy_raises_what_super_raises :
  let r := onDestroy Samples.unhooked initialStore in
  outcome r = Throws {| message := Some "base class failed" |}
  /\ length (filter isClose (trace r)) = 5
  /\ outcome r <> Returns tt.
Proof.
  cbv zeta. split; [reflexivity|]. split; [reflexivity | discriminate].
Qed.

(** C8 (amended).  [onDestroy] runs its five guarded blocks to the end and reaches
    [super.onDestroy()] whatever the recognizers do: nothing raised by
    building or closing a client escapes, so [onDestroy] ends the way the base
    class's hook ends.  Every script's recognizer is released: a client that
    exists is closed; a delegate that was never initialized is initialized at
    this point and its client closed, or, when the client cannot be built,
    left uninitialized. *)
Theorem onDestroy_closes_every_recognizer (env : Env) (st : Store) :
  let r := onDestroy env st in
  outcome r = match super_onDestroy env with
              | Some e => Throws e
              | None => Returns tt
              end
  /\ forall s, released env s st (store r) (trace r).
Proof.
  intros r. subst r. rewrite onDestroy_unfold.
  destruct (closeAllThen_spec env (callSuper env) allScripts allScripts_NoDup st)
    as (st' & calls & Hrun & _ & Hrel).
  rewrite Hrun. cbn. unfold callSuper.
  split.
  - destruct (super_onDestroy env); reflexivity.
  - intros s. specialize (Hrel s (allScripts_complete s)).
    assert (Hstore : store (callSuper env st') = st')
      by (unfold callSuper; destruct (super_onDestroy env); reflexivity).
    assert (Htrace : trace (callSuper env st') = [])
      by (unfold callSuper; destruct (super_onDestroy env); reflexivity).
    fold (callSuper env). rewrite Hstore, Htrace, app_nil_r. exact Hrel.
Qed.

(** ** The lazy recognizers across requests served one after the other *)

Lemma Script_eqb_spec (s s' : Script) : reflect (s = s') (Script_eqb s s').
Proof. destruct s, s'; constructor; congruence. Qed.

(** Nothing is built when the module is created. *)
Lemma initialStore_defers (s : Script) :
  delegate s initialStore = None /\ constructed initialStore = 0.
Proof. destruct s; split; reflexivity. Qed.

(** The first read of a lazy property builds the client and keeps it. *)
Lemma lazyValue_first_use (env : Env) (s : Script) (st : Store) :
  delegate s st = None ->
  getClient_failure env s = None ->
  let r := {| model := s; serial := constructed st |} in
  lazyValue env s st
  = {| outcome := Returns r;
       store := initialize s r st;
       trace := [GetClient s (Returns r)] |}.
Proof.
  intros D G. unfold lazyValue. rewrite D, G. reflexivity.
Qed.

(** Every later read hands back the client that is kept, and calls nothing. *)
Lemma lazyValue_reuses (env : Env) (s : Script) (st : Store) (r : TextRecognizer) :
  delegate s st = Some r ->
  lazyValue env s st = {| outcome := Returns r; store := st; trace := [] |}.
Proof.
  intros D. unfold lazyValue. rewrite D. reflexivity.
Qed.

Lemma extractTextFromImage_returns
    (env : Env) (uriString : string) (options : option RecognitionOptionsRecord)
    (st : Store) :
  exists settled, outcome (extractTextFromImage env uriString options st) = Returns settled.
Proof.
  run_extract; eauto.
Qed.

(** One request and the delegate of [s]: either the request leaves it alone
    and builds no client for [s], or the delegate was not initialized and the
    request builds exactly one client for [s], which the delegate keeps. *)
Lemma extractTextFromImage_builds_at_most_once
    (env : Env) (uriString : string) (options : option RecognitionOptionsRecord)
    (st : Store) (s : Script) :
  let r := extractTextFromImage env uriString options st in
  (delegate s (store r) = delegate s st /\ filter (builds s) (trace r) = [])
  \/ (delegate s st = None
      /\ exists recognizer,
           delegate s (store r) = Some recognizer
           /\ filter (builds s) (trace r) = [GetClient s (Returns recognizer)]).
Proof.
  intros r. subst r.
  unfold extractTextFromImage. autorewrite with selector.
  generalize (selectedScript (scriptOf options)) as selected.
  intros selected. run_extract; auto.
  all: match goal with
       | H : Script_eqb ?a ?b = true |- _ =>
           destruct (Script_eqb_spec a b) as [E|]; [subst a | discriminate];
           right; split; [assumption |];
           eexists; rewrite delegate_initialize_same; split; reflexivity
       | H : Script_eqb ?a ?b = false |- _ =>
           destruct (Script_eqb_spec a b) as [|N]; [discriminate |];
           left; split; [apply delegate_initialize_other; exact N | reflexivity]
       end.
Qed.

Lemma serve_returns
    (env : Env) (requests : list (string * option RecognitionOptionsRecord)) :
  forall st, exists settled, outcome (serve env requests st) = Returns settled.
Proof.
  induction requests as [|[uriString options] later IH]; intros st.
  - cbn. eauto.
  - cbn [serve]. unfold bind.
    destruct (extractTextFromImage_returns env uriString options st) as [x Hx].
    destruct (extractTextFromImage env uriString options st) as [o1 st1 t1].
    cbn in Hx. subst o1.
    destruct (IH st1) as [others Ho].
    destruct (serve env later st1) as [o2 st2 t2]. cbn in Ho. subst o2.
    cbn. eauto.
Qed.

(** Along any sequence of requests, started in any state, at most one client
    is ever built for a script, and none for a script whose delegate is
    initialized already: that client is the one every request gets. *)
Lemma serve_builds_at_most_once
    (env : Env) (requests : list (string * option RecognitionOptionsRecord))
    (s : Script) :
  forall st,
    let r := serve env requests st in
    length (filter (builds s) (trace r)) <= 1
    /\ (forall recognizer,
          delegate s st = Some recognizer ->
          filter (builds s) (trace r) = []
          /\ delegate s (store r) = Some recognizer).
Proof.
  induction requests as [|[uriString options] later IH]; intros st; cbn zeta.
  - cbn. split; [lia | auto].
  - cbn [serve]. unfold bind.
    destruct (extractTextFromImage_returns env uriString options st) as [x Hx].
    pose proof (extractTextFromImage_builds_at_most_once env uriString options st s)
      as Hfirst. cbn zeta in Hfirst.
    destruct (extractTextFromImage env uriString options st) as [o1 st1 t1].
    cbn in Hx, Hfirst. subst o1.
    destruct (serve_returns env later st1) as [others Ho].
    specialize (IH st1). cbn zeta in IH.
    destruct (serve env later st1) as [o2 st2 t2].
    cbn in Ho, IH. subst o2. cbn.
    destruct IH as [Hcount Hkept].
    rewrite app_nil_r, filter_app, length_app.
    destruct Hfirst as [[Hsame Hnone] | [Hfresh (recognizer & Hnow & Hone)]].
    + rewrite Hnone. cbn. split; [exact Hcount |].
      intros recognizer D. rewrite <- Hsame in D. apply (Hkept recognizer D).
    + rewrite Hone. destruct (Hkept recognizer Hnow) as [H1 H2]. rewrite H1. cbn.
      split; [lia |]. intros x' D. congruence.
Qed.

(** ** [index.ts]: which part of a locator is removed *)

Lemma prefix_app_long (pat a b : string) :
  String.length pat <= String.length a ->
  prefix pat (a ++ b)%string = prefix pat a.
Proof.
  revert a. induction pat as [|c pat IH]; intros a H.
  - destruct a; cbn; [destruct b|]; reflexivity.
  - destruct a as [|d a]; cbn in H; [lia|].
    cbn. destruct (ascii_dec c d); [apply IH; lia | reflexivity].
Qed.

Lemma prefix_split (pat s : string) :
  prefix pat s = true -> s = (pat ++ Str.drop (String.length pat) s)%string.
Proof.
  revert s. induction pat as [|c pat IH]; intros s H.
  - reflexivity.
  - destruct s as [|d s]; cbn in H; [discriminate|].
    destruct (ascii_dec c d) as [<-|]; [|discriminate].
    cbn. f_equal. apply IH. exact H.
Qed.

Lemma prefix_short (pat s : string) :
  String.length s < String.length pat -> prefix pat s = false.
Proof.
  revert s. induction pat as [|c pat IH]; intros s H; cbn in H; [lia|].
  destruct s as [|d s]; cbn; [reflexivity|].
  cbn in H. destruct (ascii_dec c d); [apply IH; lia | reflexivity].
Qed.

Lemma includes_short (pat s : string) :
  String.length s < String.length pat -> Str.includes pat s = false.
Proof.
  induction s as [|d s IH]; intros H; cbn [Str.includes];
    rewrite (prefix_short pat _ H); [reflexivity|].
  apply IH. cbn in H. lia.
Qed.

Lemma length_append (a b : string) :
  String.length (a ++ b)%string = String.length a + String.length b.
Proof. induction a as [|c a IH]; cbn; [reflexivity | rewrite IH; reflexivity]. Qed.

Lemma append_assoc (a b c : string) :
  ((a ++ b) ++ c)%string = (a ++ (b ++ c))%string.
Proof. induction a as [|x a IH]; cbn; [reflexivity | rewrite IH; reflexivity]. Qed.

Lemma regroup (c : ascii) (before p x after : string) :
  String c (before ++ (p ++ x) ++ after)%string
  = (String c (before ++ p) ++ (x ++ after))%string.
Proof.
  cbn [append]. f_equal. rewrite (append_assoc p x after).
  symmetry. apply append_assoc.
Qed.

(** [replace] finds the first occurrence: when no occurrence of the pattern
    [p ++ l] starts inside [before], the occurrence that follows [before] is
    the one replaced, and whatever comes after it is copied. *)
Lemma replace_first_occurrence (p : string) (l : ascii) (rep before after : string) :
  let pat := (p ++ String l "")%string in
  Str.includes pat (before ++ p) = false ->
  Str.replace pat rep (before ++ pat ++ after) = (before ++ rep ++ after)%string.
Proof.
  intros pat. induction before as [|c before IH]; intros H.
  - cbn [append]. rewrite replace_at_prefix by apply prefix_append.
    rewrite drop_append. reflexivity.
  - cbn [append] in *. cbn [Str.includes] in H.
    destruct (prefix pat (String c (before ++ p))) eqn:P; [discriminate|].
    cbn [Str.replace].
    assert (E : prefix pat (String c (before ++ pat ++ after)) = false).
    { rewrite <- P. unfold pat at 2. rewrite (regroup c before p (String l "") after).
      apply prefix_app_long. unfold pat. cbn. rewrite !length_append. cbn. lia. }
    rewrite E. f_equal. apply IH. exact H.
Qed.

(** A string that includes the pattern splits at its first occurrence. *)
Lemma includes_split (p : string) (l : ascii) (s : string) :
  let pat := (p ++ String l "")%string in
  Str.includes pat s = true ->
  exists before after,
    s = (before ++ pat ++ after)%string
    /\ Str.includes pat (before ++ p) = false.
Proof.
  intros pat.
  assert (Hp : Str.includes pat p = false).
  { apply includes_short. unfold pat. rewrite length_append. cbn. lia. }
  induction s as [|c s IH]; cbn [Str.includes].
  - rewrite prefix_short; [discriminate|].
    unfold pat. rewrite length_append. cbn. lia.
  - destruct (prefix pat (String c s)) eqn:P.
    + intros _. exists ""%string, (Str.drop (String.length pat) (String c s)).
      split; [apply prefix_split; exact P | exact Hp].
    + intros H. destruct (IH H) as (before & after & -> & Hb).
      exists (String c before), after. split; [reflexivity|].
      cbn [append Str.includes]. rewrite Hb.
      assert (E : prefix pat (String c (before ++ p)) = false).
      { rewrite <- P. symmetry. unfold pat at 2.
        rewrite (regroup c before p (String l "") after).
        apply prefix_app_long. unfold pat. cbn. rewrite !length_append. cbn. lia. }
      rewrite E. reflexivity.
Qed.

(** X1.  What [extractTextFromImage] of [index.ts] hands to the native
    module: a locator without [file://] as it is; any other locator without
    the first [file://] in it, whatever stands before and after that
    occurrence, later occurrences included, being kept. *)
Theorem processedUri_removes_first_occurrence (uri : string) :
  (Str.includes "file://" uri = false /\ Index.processedUri uri = uri)
  \/ (exists before after,
        uri = (before ++ "file://" ++ after)%string
        /\ Str.includes "file://" (before ++ "file:/") = false
        /\ Index.processedUri uri = (before ++ after)%string).
Proof.
  destruct (Str.includes "file://" uri) eqn:I.
  - right. destruct (includes_split "file:/" "/" uri I) as (before & after & E & F).
    exists before, after. split; [exact E|]. split; [exact F|].
    rewrite E. unfold Index.processedUri.
    apply (replace_first_occurrence "file:/" "/" "" before after F).
  - left. split; [reflexivity | apply processedUri_without_scheme; exact I].
Qed.

Example processedUri_keeps_later_occurrences :
  Index.processedUri "file:///a/file://b" = "/a/file://b".
Proof. reflexivity. Qed.

(** ** What a request reads of its options *)

Lemma getRecognizerForScript_by_lowercase (env : Env) (s1 s2 : option string) :
  option_map Str.lowercase s1 = option_map Str.lowercase s2 ->
  getRecognizerForScript env s1 = getRecognizerForScript env s2.
Proof.
  intros H. unfold getRecognizerForScript. rewrite H. reflexivity.
Qed.

(** X2.  Of its options, the Android [extractTextFromImage] reads the script
    and nothing else, and of the script only its lowercase form: two option
    records that agree there ([languages] may differ, one may be absent when
    the other has no script) give the same run. *)
Theorem extractTextFromImage_reads_only_the_script
    (env : Env) (uriString : string) (o1 o2 : option RecognitionOptionsRecord)
    (st : Store) :
  option_map Str.lowercase (scriptOf o1) = option_map Str.lowercase (scriptOf o2) ->
  extractTextFromImage env uriString o1 st = extractTextFromImage env uriString o2 st.
Proof.
  intros H. unfold extractTextFromImage.
  rewrite (getRecognizerForScript_by_lowercase env _ _ H). reflexivity.
Qed.

(** X2, at a request for Japanese with and without language hints. *)
Lemma extractTextFromImage_reads_only_the_script_witness :
  let env := Samples.device ["/tmp/receipt.jpg"] (TaskSuccess Samples.receipt) in
  let hinted := Some {| script := Some "Japanese"; languages := Some ["ja-JP"; "en-US"] |} in
  let plain := Some {| script := Some "japanese"; languages := None |} in
  option_map Str.lowercase (scriptOf hinted) = option_map Str.lowercase (scriptOf plain)
  /\ extractTextFromImage env "/tmp/receipt.jpg" hinted initialStore
     = extractTextFromImage env "/tmp/receipt.jpg" plain initialStore.
Proof.
  cbv zeta. split; [reflexivity|].
  apply (extractTextFromImage_reads_only_the_script
           (Samples.device ["/tmp/receipt.jpg"] (TaskSuccess Samples.receipt))
           "/tmp/receipt.jpg"
           (Some {| script := Some "Japanese"; languages := Some ["ja-JP"; "en-US"] |})
           (Some {| script := Some "japanese"; languages := None |})
           initialStore).
  reflexivity.
Defined.

(** ** The store stays well formed *)

Lemma constructed_initialize (s : Script) (r : TextRecognizer) (st : Store) :
  constructed (initialize s r st) = S (constructed st).
Proof. destruct s; reflexivity. Qed.

Lemma wellFormed_initialize (s : Script) (st : Store) :
  wellFormed st ->
  wellFormed (initialize s {| model := s; serial := constructed st |} st).
Proof.
  intros W s' r. rewrite constructed_initialize.
  destruct (Script_eqb_spec s' s) as [->|N].
  - rewrite delegate_initialize_same. intros H. injection H as <-. cbn. split; [reflexivity | lia].
  - rewrite (delegate_initialize_other s s' _ st N). intros H.
    destruct (W s' r H). split; [assumption | lia].
Qed.

Lemma wellFormed_initialStore : wellFormed initialStore.
Proof. intros s r H. destruct s; discriminate H. Qed.

Lemma lazyValue_wellFormed (env : Env) (s : Script) (st : Store) :
  wellFormed st -> wellFormed (store (lazyValue env s st)).
Proof.
  intros W. unfold lazyValue.
  destruct (delegate s st); [exact W|].
  destruct (getClient_failure env s); [exact W|].
  cbn. apply wellFormed_initialize. exact W.
Qed.

Lemma extractTextFromImage_wellFormed
    (env : Env) (uriString : string) (options : option RecognitionOptionsRecord)
    (st : Store) :
  wellFormed st -> wellFormed (store (extractTextFromImage env uriString options st)).
Proof.
  intros W. run_extract; try exact W; apply wellFormed_initialize; exact W.
Qed.

Lemma closeQuietly_wellFormed (env : Env) (s : Script) (st : Store) :
  wellFormed st -> wellFormed (store (closeQuietly (lazyValue env s) env st)).
Proof.
  intros W. pose proof (lazyValue_wellFormed env s st W) as L.
  unfold closeQuietly, tryCatch, bind, close, call, ret.
  destruct (lazyValue env s st) as [[r|e] st1 t1]; cbn in *;
    [destruct (close_failure env r) |]; exact L.
Qed.

Lemma store_after {A} (before : list Event) (r : Run A) :
  store (after before r) = store r.
Proof. destruct r; reflexivity. Qed.

Lemma closeAllThen_wellFormed (env : Env) (rest : M unit) (scripts : list Script) :
  (forall st, wellFormed st -> wellFormed (store (rest st))) ->
  forall st, wellFormed st -> wellFormed (store (closeAllThen env scripts rest st)).
Proof.
  intros R. induction scripts as [|s scripts IH]; intros st W; [apply R; exact W|].
  cbn [closeAllThen fold_right]. fold (closeAllThen env scripts rest). unfold bind.
  pose proof (closeQuietly_wellFormed env s st W) as L.
  destruct (closeQuietly (lazyValue env s) env st) as [[[]|e] st1 t1]; cbn in L.
  - rewrite store_after. apply IH. exact L.
  - exact L.
Qed.

Lemma onDestroy_wellFormed (env : Env) (st : Store) :
  wellFormed st -> wellFormed (store (onDestroy env st)).
Proof.
  rewrite onDestroy_unfold. apply closeAllThen_wellFormed.
  intros st' W. unfold callSuper. destruct (super_onDestroy env); exact W.
Qed.

Lemma serve_wellFormed
    (env : Env) (requests : list (string * option RecognitionOptionsRecord)) :
  forall st, wellFormed st -> wellFormed (store (serve env requests st)).
Proof.
  induction requests as [|[uriString options] later IH]; intros st W; [exact W|].
  cbn [serve]. unfold bind.
  pose proof (extractTextFromImage_wellFormed env uriString options st W) as L.
  destruct (extractTextFromImage env uriString options st) as [[x|e] st1 t1];
    cbn in L; [|exact L].
  rewrite store_after. specialize (IH st1 L).
  destruct (serve env later st1) as [[others|e] st2 t2]; cbn in *; exact IH.
Qed.

(** X3.  An invariant of the module's state: each initialized delegate holds
    a client built for that delegate's script, with a serial number below the
    count of clients built.  It holds when the module is created and every
    operation keeps it: a request, a sequence of requests, the languages
    query and teardown. *)
Theorem wellFormed_is_invariant (env : Env) :
  wellFormed initialStore
  /\ (forall uriString options st,
        wellFormed st ->
        wellFormed (store (extractTextFromImage env uriString options st)))
  /\ (forall requests st,
        wellFormed st -> wellFormed (store (serve env requests st)))
  /\ (forall script st,
        wellFormed st -> wellFormed (store (getSupportedLanguages script st)))
  /\ (forall st, wellFormed st -> wellFormed (store (onDestroy env st))).
Proof.
  split; [exact wellFormed_initialStore|].
  split; [apply extractTextFromImage_wellFormed|].
  split; [apply serve_wellFormed|].
  split; [intros script st W; exact W | apply onDestroy_wellFormed].
Qed.

(** ** Which recognizer a request runs *)

(** The recognizer a request runs is the client its script's delegate holds
    once the request is over. *)
Lemma processed_by_the_delegate
    (env : Env) (uriString : string) (options : option RecognitionOptionsRecord)
    (st : Store) (recognizer : TextRecognizer) (image : InputImage)
    (result : Outcome Task) :
  In (Process recognizer image result)
     (trace (extractTextFromImage env uriString options st)) ->
  delegate (selectedScript (scriptOf options))
           (store (extractTextFromImage env uriString options st))
  = Some recognizer.
Proof.
  unfold extractTextFromImage. autorewrite with selector.
  generalize (selectedScript (scriptOf options)) as selected. intros selected.
  run_extract; intros H;
    repeat (destruct H as [H|H]; [try discriminate H | ]); try contradiction;
    injection H as <- <- <-;
    first [assumption | apply delegate_initialize_same].
Qed.

Lemma processed_model
    (env : Env) (uriString : string) (options : option RecognitionOptionsRecord)
    (st : Store) (recognizer : TextRecognizer) (image : InputImage)
    (result : Outcome Task) :
  wellFormed st ->
  In (Process recognizer image result)
     (trace (extractTextFromImage env uriString options st)) ->
  model recognizer = selectedScript (scriptOf options).
Proof.
  intros W H. apply processed_by_the_delegate in H.
  apply (extractTextFromImage_wellFormed env uriString options st W) in H.
  apply H.
Qed.

(** X4.  From a well-formed state, the recognizer that a request hands the
    image to is a client for the model its script option selects: the Latin
    one without a script or with an unknown one. *)
Theorem request_runs_the_selected_model
    (env : Env) (uriString : string) (options : option RecognitionOptionsRecord)
    (st : Store) (recognizer : TextRecognizer) (image : InputImage)
    (result : Outcome Task) :
  wellFormed st ->
  In (Process recognizer image result)
     (trace (extractTextFromImage env uriString options st)) ->
  model recognizer = selectedScript (scriptOf options).
Proof.
  apply processed_model.
Qed.

(** X4, at a request for Chinese on a fresh module. *)
Lemma request_runs_the_selected_model_witness :
  let env := Samples.device ["/tmp/receipt.jpg"] (TaskSuccess Samples.receipt) in
  let client := {| model := Chinese; serial := 0 |} in
  wellFormed initialStore
  /\ In (Process client (ImageData 0) (Returns (TaskSuccess Samples.receipt)))
        (trace (extractTextFromImage env "/tmp/receipt.jpg"
                  (Some Samples.chineseOptions) initialStore))
  /\ model client = selectedScript (scriptOf (Some Samples.chineseOptions)).
Proof.
  cbv zeta.
  assert (H : In (Process {| model := Chinese; serial := 0 |} (ImageData 0)
                    (Returns (TaskSuccess Samples.receipt)))
                 (trace (extractTextFromImage
                           (Samples.device ["/tmp/receipt.jpg"] (TaskSuccess Samples.receipt))
                           "/tmp/receipt.jpg" (Some Samples.chineseOptions) initialStore))).
  { cbn. right. right. left. reflexivity. }
  split; [exact wellFormed_initialStore|]. split; [exact H|].
  exact (request_runs_the_selected_model _ _ _ _ _ _ _ wellFormed_initialStore H).
Defined.

(** X5.  The vendor calls of one request come in a fixed order and stop at
    the first one that raises: the image is loaded from the locator; only
    then, and only if the delegate is not initialized, the recognizer is
    built; only then the recognizer is run, on the image the loader returned
    and on the client the delegate held or, if one was just built, on that
    one.  No request closes a recognizer. *)
Theorem request_calls_in_order
    (env : Env) (uriString : string) (options : option RecognitionOptionsRecord)
    (st : Store) :
  let r := extractTextFromImage env uriString options st in
  requestCalls env uriString (selectedScript (scriptOf options)) st (trace r)
  /\ forallb (fun ev => negb (isClose ev)) (trace r) = true.
Proof.
  intros r. subst r. unfold requestCalls, uriOf.
  unfold extractTextFromImage. autorewrite with selector.
  generalize (selectedScript (scriptOf options)) as selected. intros selected.
  destruct (File_exists env uriString) eqn:Hf.
  all: run_extract; (split; [|reflexivity]).
  all: try match goal with
       | H : negb (File_exists _ _) = _ |- _ => rewrite Hf in H; discriminate H
       end.
  all: first
    [ left; split; [reflexivity|]; first [left; reflexivity | right; split; reflexivity]
    | right; eexists; split; [reflexivity|];
      split; [first [left; reflexivity | right; reflexivity]|];
      first
        [ left; eexists; split; [eassumption | reflexivity]
        | right; eexists; split; [eassumption|];
          first
            [ left; eexists; split; [reflexivity|];
              match goal with H : process _ _ _ = _ |- _ => rewrite H end; reflexivity
            | right; left; eexists; split; [reflexivity|]; split; reflexivity
            | right; right; split; [reflexivity|]; split; [reflexivity|];
              match goal with H : process _ _ _ = _ |- _ => rewrite H end; reflexivity ] ] ].
Qed.

Example cached_client_is_not_rebuilt :
  let env := Samples.device ["/a.png"] (TaskSuccess Samples.blankPage) in
  let client := {| model := Latin; serial := 0 |} in
  trace (extractTextFromImage env "/a.png" None (initialize Latin client initialStore))
  = [FromFilePath (Uri_fromFile "/a.png") (Returns (ImageData 0));
     Process client (ImageData 0) (Returns (TaskSuccess Samples.blankPage))].
Proof. reflexivity. Qed.

(** ** One client per script over the life of the module *)

Lemma trace_after {A} (before : list Event) (r : Run A) :
  trace (after before r) = before ++ trace r.
Proof. destruct r; reflexivity. Qed.

(** Over a sequence of requests, every recognizer that was run is, at the
    end, the client its model's delegate holds. *)
Lemma served_by_the_delegates
    (env : Env) (requests : list (string * option RecognitionOptionsRecord)) :
  forall st recognizer image result,
    wellFormed st ->
    In (Process recognizer image result) (trace (serve env requests st)) ->
    delegate (model recognizer) (store (serve env requests st)) = Some recognizer.
Proof.
  induction requests as [|[uriString options] later IH];
    intros st recognizer image result W H; [contradiction H|].
  pose proof (serve_builds_at_most_once env later (model recognizer)) as Hkept.
  pose proof (extractTextFromImage_wellFormed env uriString options st W) as W1.
  pose proof (processed_by_the_delegate env uriString options st recognizer image result)
    as Hfirst.
  pose proof (processed_model env uriString options st
                recognizer image result W) as Hmodel.
  destruct (extractTextFromImage_returns env uriString options st) as [x Hx].
  cbn [serve] in *. unfold bind in *.
  destruct (extractTextFromImage env uriString options st) as [o1 st1 t1].
  cbn in Hx, W1, Hfirst, Hmodel. subst o1.
  specialize (IH st1 recognizer image result W1).
  specialize (Hkept st1). cbn zeta in Hkept. destruct Hkept as [_ Hkept].
  destruct (serve_returns env later st1) as [others Ho].
  destruct (serve env later st1) as [o2 st2 t2]. cbn in Ho, IH, Hkept. subst o2.
  cbn in H |- *. rewrite app_nil_r in H.
  apply in_app_or in H. destruct H as [H|H].
  - apply Hkept. rewrite (Hmodel H). apply Hfirst. exact H.
  - apply IH. exact H.
Qed.

(** X6.  Served one after the other on a module that starts fresh, requests
    build at most one client per script, and all requests that run a
    recognizer of one model run the very same client. *)
Theorem one_client_per_script
    (env : Env) (requests : list (string * option RecognitionOptionsRecord)) :
  let r := serve env requests initialStore in
  (forall s, length (filter (builds s) (trace r)) <= 1)
  /\ (forall r1 r2 image1 image2 result1 result2,
        In (Process r1 image1 result1) (trace r) ->
        In (Process r2 image2 result2) (trace r) ->
        model r1 = model r2 ->
        r1 = r2).
Proof.
  intros r. subst r. split.
  - intros s. apply (serve_builds_at_most_once env requests s initialStore).
  - intros r1 r2 image1 image2 result1 result2 H1 H2 E.
    apply (served_by_the_delegates env requests _ _ _ _ wellFormed_initialStore) in H1.
    apply (served_by_the_delegates env requests _ _ _ _ wellFormed_initialStore) in H2.
    rewrite E in H1. congruence.
Qed.

Example two_requests_share_the_client :
  trace (serve (Samples.device ["/a.png"; "/b.png"] (TaskSuccess Samples.blankPage))
           [("/a.png", Some Samples.chineseOptions); ("/b.png", Some Samples.chineseOptions)]
           initialStore)
  = let client := {| model := Chinese; serial := 0 |} in
    [FromFilePath (Uri_fromFile "/a.png") (Returns (ImageData 0));
     GetClient Chinese (Returns client);
     Process client (ImageData 0) (Returns (TaskSuccess Samples.blankPage));
     FromFilePath (Uri_fromFile "/b.png") (Returns (ImageData 0));
     Process client (ImageData 0) (Returns (TaskSuccess Samples.blankPage))].
Proof. reflexivity. Qed.

(** ** What teardown calls *)

(** The calls of one guarded block: nothing but building and closing; one
    build exactly when the delegate is not initialized; one close exactly
    when there is a client, old or new. *)
Lemma closeQuietly_calls (env : Env) (s : Script) (st : Store) :
  let r := closeQuietly (lazyValue env s) env st in
  forallb (fun ev => isGetClient ev || isClose ev) (trace r) = true
  /\ length (filter isGetClient (trace r)) = (if isInitialized st s then 0 else 1)
  /\ length (filter isClose (trace r))
     = (if isInitialized st s || canBuild env s then 1 else 0).
Proof.
  unfold closeQuietly, tryCatch, bind, lazyValue, close, call, ret,
    isInitialized, canBuild. cbn.
  destruct (delegate s st) as [recognizer|]; cbn.
  - destruct (close_failure env recognizer); cbn; auto.
  - destruct (getClient_failure env s); cbn; [auto|].
    destruct (close_failure env _); cbn; auto.
Qed.

Lemma closeAllThen_calls (env : Env) (rest : M unit) (scripts : list Script) :
  NoDup scripts ->
  forall st, exists st' calls,
    closeAllThen env scripts rest st
    = {| outcome := outcome (rest st');
         store := store (rest st');
         trace := calls ++ trace (rest st') |}
    /\ (forall s, ~ In s scripts -> delegate s st' = delegate s st)
    /\ forallb (fun ev => isGetClient ev || isClose ev) calls = true
    /\ length (filter isGetClient calls)
       = length (filter (fun s => negb (isInitialized st s)) scripts)
    /\ length (filter isClose calls)
       = length (filter (fun s => isInitialized st s || canBuild env s) scripts).
Proof.
  induction 1 as [|s scripts Hnotin Hnodup IH]; intros st.
  - exists st, []. cbn. destruct (rest st); cbn. auto.
  - destruct (closeQuietly_spec env s st) as (Hout & Hframe & _).
    destruct (closeQuietly_calls env s st) as (Hkind & Hbuilds & Hcloses).
    cbn [closeAllThen fold_right]. fold (closeAllThen env scripts rest).
    unfold bind.
    destruct (closeQuietly (lazyValue env s) env st) as [o st1 t1].
    cbn in Hout, Hframe, Hkind, Hbuilds, Hcloses. subst o.
    destruct (IH st1) as (st' & calls & Hrun & Hframe' & Hkind' & Hbuilds' & Hcloses').
    rewrite Hrun. cbn.
    assert (Hsame : forall s', In s' scripts -> isInitialized st1 s' = isInitialized st s').
    { intros s' Hin. unfold isInitialized. rewrite Hframe; [reflexivity|].
      intros ->. contradiction. }
    exists st', (t1 ++ calls).
    split; [rewrite app_assoc; reflexivity |].
    split.
    { intros s' Hs'. cbn in Hs'.
      rewrite Hframe' by tauto. apply Hframe. intros ->. tauto. }
    split; [rewrite forallb_app, Hkind, Hkind'; reflexivity |].
    rewrite !filter_app, !length_app, Hbuilds, Hcloses, Hbuilds', Hcloses'.
    rewrite (filter_ext_in _ (fun s' => negb (isInitialized st s')) scripts)
      by (intros s' Hin; rewrite (Hsame s' Hin); reflexivity).
    rewrite (filter_ext_in (fun s' => isInitialized st1 s' || canBuild env s')
               (fun s' => isInitialized st s' || canBuild env s') scripts)
      by (intros s' Hin; rewrite (Hsame s' Hin); reflexivity).
    split.
    + destruct (isInitialized st s); reflexivity.
    + destruct (isInitialized st s || canBuild env s); reflexivity.
Qed.

(** X7.  What [onDestroy] asks of the vendor: it only builds and closes
    recognizers.  It builds one client for every delegate that is not
    initialized when it starts, so also for scripts no request ever named,
    and it closes one client for every script that has one by then. *)
Theorem onDestroy_builds_what_it_closes (env : Env) (st : Store) :
  let calls := trace (onDestroy env st) in
  forallb (fun ev => isGetClient ev || isClose ev) calls = true
  /\ length (filter isGetClient calls)
     = length (filter (fun s => negb (isInitialized st s)) allScripts)
  /\ length (filter isClose calls)
     = length (filter (fun s => isInitialized st s || canBuild env s) allScripts).
Proof.
  intros calls. subst calls. rewrite onDestroy_unfold.
  destruct (closeAllThen_calls env (callSuper env) allScripts allScripts_NoDup st)
    as (st' & calls & Hrun & _ & Hkind & Hbuilds & Hcloses).
  rewrite Hrun. cbn [trace].
  assert (Htrace : trace (callSuper env st') = [])
    by (unfold callSuper; destruct (super_onDestroy env); reflexivity).
  rewrite Htrace, app_nil_r. auto.
Qed.

Example onDestroy_of_an_unused_module :
  let calls := trace (onDestroy (Samples.device [] (TaskSuccess Samples.blankPage))
                        initialStore) in
  length (filter isGetClient calls) = 5 /\ length (filter isClose calls) = 5.
Proof. split; reflexivity. Qed.

(** ** A request after teardown *)

Lemma onDestroy_released (env : Env) (st : Store) (s : Script) :
  released env s st (store (onDestroy env st)) (trace (onDestroy env st)).
Proof.
  rewrite onDestroy_unfold.
  destruct (closeAllThen_spec env (callSuper env) allScripts allScripts_NoDup st)
    as (st' & calls & Hrun & _ & Hrel).
  rewrite Hrun. cbn [store trace].
  assert (E : callSuper env st'
              = {| outcome := outcome (callSuper env st'); store := st'; trace := [] |})
    by (unfold callSuper; destruct (super_onDestroy env); reflexivity).
  rewrite E. cbn. rewrite app_nil_r. apply Hrel. apply allScripts_complete.
Qed.

(** A client that teardown leaves in a delegate is one it has closed. *)
Lemma kept_after_onDestroy_is_closed
    (env : Env) (st : Store) (s : Script) (recognizer : TextRecognizer) :
  delegate s (store (onDestroy env st)) = Some recognizer ->
  In (Close recognizer (close_failure env recognizer)) (trace (onDestroy env st)).
Proof.
  intros H. pose proof (onDestroy_released env st s) as R. unfold released in R.
  destruct (delegate s st) as [r0|].
  - destruct R as [D C]. rewrite H in D. injection D as ->. exact C.
  - destruct (getClient_failure env s).
    + destruct R as [D _]. congruence.
    + destruct R as (r0 & _ & D & _ & C). rewrite H in D. injection D as ->. exact C.
Qed.

(** A request whose script's delegate is initialized builds nothing and runs
    the client the delegate holds. *)
Lemma request_reuses_the_delegate
    (env : Env) (uriString : string) (options : option RecognitionOptionsRecord)
    (st : Store) (recognizer : TextRecognizer) :
  delegate (selectedScript (scriptOf options)) st = Some recognizer ->
  let r := extractTextFromImage env uriString options st in
  store r = st
  /\ filter isGetClient (trace r) = []
  /\ forall used image result,
       In (Process used image result) (trace r) -> used = recognizer.
Proof.
  intros D r. subst r. revert D.
  unfold extractTextFromImage. autorewrite with selector.
  generalize (selectedScript (scriptOf options)) as selected. intros selected D.
  run_extract; try congruence.
  all: split; [reflexivity|]; split; [reflexivity|].
  all: intros used image result H;
    repeat (destruct H as [H|H]; [try discriminate H | ]); try contradiction;
    injection H as <- <- <-; congruence.
Qed.

(** X8.  Teardown closes the recognizers but leaves them in their delegates:
    a request that arrives after [onDestroy] builds no new client and runs a
    client that [onDestroy] has closed. *)
Theorem request_after_onDestroy_runs_a_closed_client
    (env : Env) (st : Store) (uriString : string)
    (options : option RecognitionOptionsRecord) (recognizer : TextRecognizer) :
  let torn := store (onDestroy env st) in
  delegate (selectedScript (scriptOf options)) torn = Some recognizer ->
  In (Close recognizer (close_failure env recognizer)) (trace (onDestroy env st))
  /\ filter isGetClient (trace (extractTextFromImage env uriString options torn)) = []
  /\ forall used image result,
       In (Process used image result)
          (trace (extractTextFromImage env uriString options torn)) ->
       used = recognizer.
Proof.
  intros torn D. split.
  - apply (kept_after_onDestroy_is_closed env st _ recognizer D).
  - apply (request_reuses_the_delegate env uriString options torn recognizer D).
Qed.

(** X8, on a module that is torn down before its first request. *)
Lemma request_after_onDestroy_runs_a_closed_client_witness :
  let env := Samples.device ["/tmp/receipt.jpg"] (TaskSuccess Samples.receipt) in
  let torn := store (onDestroy env initialStore) in
  let client := {| model := Latin; serial := 0 |} in
  delegate (selectedScript (scriptOf None)) torn = Some client
  /\ In (Close client (close_failure env client)) (trace (onDestroy env initialStore))
  /\ trace (extractTextFromImage env "/tmp/receipt.jpg" None torn)
     = [FromFilePath (Uri_fromFile "/tmp/receipt.jpg") (Returns (ImageData 0));
        Process client (ImageData 0) (Returns (TaskSuccess Samples.receipt))].
Proof.
  cbv zeta. split; [reflexivity|].
  split; [|reflexivity].
  exact (proj1 (request_after_onDestroy_runs_a_closed_client
                  (Samples.device ["/tmp/receipt.jpg"] (TaskSuccess Samples.receipt))
                  initialStore "/tmp/receipt.jpg" None
                  {| model := Latin; serial := 0 |} eq_refl)).
Defined.

(** ** The script names of [types.ts] and of the Android module *)

(** X9.  The enumeration of [types.ts] and the Android module agree: the
    values of the members of [TextRecognitionScript], in the order of their
    declaration, are the names the languages query answers with, and a
    script option that is the value of a member, in whatever case, selects
    the recognizer of that member's model, a different one for each
    member. *)
Theorem script_names_agree (env : Env) :
  map Types.value Types.members = availableScripts
  /\ (forall member s,
        Str.lowercase s = Types.value member ->
        getRecognizerForScript env (Some s) = lazyValue env (modelOf member))
  /\ (forall m1 m2, modelOf m1 = modelOf m2 -> m1 = m2).
Proof.
  split; [reflexivity|]. split.
  - intros member s H. unfold getRecognizerForScript. cbn [option_map].
    rewrite H. destruct member; reflexivity.
  - intros [] [] H; first [reflexivity | discriminate H].
Qed.

(** ** A request that succeeds, from the JavaScript entry point down *)

(** X10.  Called through [index.ts] with a [file://] locator, the module
    resolves the promise with the texts of the recognized blocks whenever the
    React context is there, the path behind the scheme (not itself a
    [content://] locator) names an existing file, the image loads, the
    selected recognizer is at hand or can be built, and its task completes
    with a text. *)
Theorem file_locator_resolves
    (env : Env) (path : string) (options : option RecognitionOptionsRecord)
    (st : Store) (context : AndroidContext) (image : InputImage)
    (recognizer : TextRecognizer) (visionText : Text) :
  reactContext env = Some context ->
  prefix "content://" path = false ->
  File_exists env path = true ->
  InputImage_fromFilePath env context (Uri_fromFile path) = Returns image ->
  outcome (getRecognizerForScript env (scriptOf options) st) = Returns recognizer ->
  process env recognizer image = Returns (TaskSuccess visionText) ->
  outcome (Index.extractTextFromImage (androidModule env) ("file://" ++ path) options st)
  = Returns (Resolved (map text (textBlocks visionText))).
Proof.
  intros Hctx Hp Hf Hl Hr Hv.
  unfold Index.extractTextFromImage. cbn [androidModule Index.native_extractTextFromImage].
  rewrite processedUri_strips_leading_scheme.
  unfold extractTextFromImage, tryCatch, bind, requireContext, resolveUri,
    fromFilePath, processImage, call, ret, throw.
  rewrite Hctx, Hp, Hf. cbn. rewrite Hl. cbn.
  destruct (getRecognizerForScript env (scriptOf options) st) as [o st1 t1].
  cbn in Hr. subst o. cbn. rewrite Hv. reflexivity.
Qed.

(** X10, at a receipt on a fresh module. *)
Lemma file_locator_resolves_witness :
  outcome (Index.extractTextFromImage
             (androidModule (Samples.device ["/tmp/receipt.jpg"] (TaskSuccess Samples.receipt)))
             "file:///tmp/receipt.jpg" (Some Samples.chineseOptions) initialStore)
  = Returns (Resolved ["TOTAL"; "12.50 EUR"]).
Proof.
  exact (file_locator_resolves
           (Samples.device ["/tmp/receipt.jpg"] (TaskSuccess Samples.receipt))
           "/tmp/receipt.jpg" (Some Samples.chineseOptions) initialStore
           TheReactContext (ImageData 0) {| model := Chinese; serial := 0 |}
           Samples.receipt eq_refl eq_refl eq_refl eq_refl eq_refl eq_refl).
Defined.

(** ** Recognizers that cannot be built, tasks that fail *)

(** X11.  When the recognizer of the selected script is not initialized and
    building it raises, the request is rejected with code [UNKNOWN_ERROR] and
    the builder's message, after the image has been loaded; the delegate
    stays uninitialized, so the same request, made again, loads the image and
    tries to build the recognizer once more. *)
Theorem failed_build_is_not_cached
    (env : Env) (uriString : string) (options : option RecognitionOptionsRecord)
    (st : Store) (context : AndroidContext) (image : InputImage) (e : Exception) :
  reactContext env = Some context ->
  (prefix "content://" uriString = true \/ File_exists env uriString = true) ->
  InputImage_fromFilePath env context (uriOf uriString) = Returns image ->
  delegate (selectedScript (scriptOf options)) st = None ->
  getClient_failure env (selectedScript (scriptOf options)) = Some e ->
  let attempt := [FromFilePath (uriOf uriString) (Returns image);
                  GetClient (selectedScript (scriptOf options)) (Throws e)] in
  extractTextFromImage env uriString options st
  = {| outcome := Returns (Rejected {| code := "UNKNOWN_ERROR";
                                       codedMessage := messageOr e "Unknown error";
                                       cause := e |});
       store := st;
       trace := attempt |}
  /\ trace (serve env [(uriString, options); (uriString, options)] st)
     = attempt ++ attempt.
Proof.
  intros Hctx Hloc Hl Hd Hg attempt. subst attempt.
  assert (E : extractTextFromImage env uriString options st
              = {| outcome := Returns (Rejected {| code := "UNKNOWN_ERROR";
                                                   codedMessage := messageOr e "Unknown error";
                                                   cause := e |});
                   store := st;
                   trace := [FromFilePath (uriOf uriString) (Returns image);
                             GetClient (selectedScript (scriptOf options)) (Throws e)] |}).
  { revert Hl. unfold uriOf, extractTextFromImage, tryCatch, bind, requireContext,
      resolveUri, fromFilePath, call, ret, throw.
    autorewrite with selector. rewrite Hctx.
    destruct (prefix "content://" uriString).
    - cbn. intros Hl. rewrite Hl. cbn. unfold lazyValue, call.
      rewrite Hd, Hg. reflexivity.
    - destruct Hloc as [Hloc|Hloc]; [discriminate|]. rewrite Hloc. cbn.
      intros Hl. rewrite Hl. cbn. unfold lazyValue, call.
      rewrite Hd, Hg. reflexivity. }
  split; [exact E|].
  cbn [serve]. unfold bind. rewrite E. cbn. rewrite E. reflexivity.
Qed.

(** X11, at a request for Korean on a device without that model. *)
Lemma failed_build_is_not_cached_witness :
  let options := Some {| script := Some "korean"; languages := None |} in
  let e := {| message := Some "model unavailable" |} in
  let attempt := [FromFilePath (Uri_fromFile "/tmp/receipt.jpg") (Returns (ImageData 0));
                  GetClient Korean (Throws e)] in
  extractTextFromImage Samples.faulty "/tmp/receipt.jpg" options initialStore
  = {| outcome := Returns (Rejected {| code := "UNKNOWN_ERROR";
                                       codedMessage := "model unavailable";
                                       cause := e |});
       store := initialStore;
       trace := attempt |}
  /\ trace (serve Samples.faulty
              [("/tmp/receipt.jpg", options); ("/tmp/receipt.jpg", options)] initialStore)
     = attempt ++ attempt.
Proof.
  exact (failed_build_is_not_cached Samples.faulty "/tmp/receipt.jpg"
           (Some {| script := Some "korean"; languages := None |}) initialStore
           TheReactContext (ImageData 0) {| message := Some "model unavailable" |}
           eq_refl (or_intror eq_refl) eq_refl eq_refl eq_refl).
Defined.

(** X12.  How a request ends once the recognizer has been run: a task that
    fails rejects the promise with code [TEXT_RECOGNITION_ERROR] and the
    task's exception; a call of the recognizer that raises by itself rejects
    it with code [UNKNOWN_ERROR].  In both cases the message is the
    exception's, or the code's fixed text when it has none, and the client
    stays in its delegate. *)
Theorem failed_recognition_is_rejected
    (env : Env) (uriString : string) (options : option RecognitionOptionsRecord)
    (st : Store) (recognizer : TextRecognizer) (image : InputImage) (e : Exception) :
  let r := extractTextFromImage env uriString options st in
  (In (Process recognizer image (Returns (TaskFailure e))) (trace r) ->
   outcome r = Returns (Rejected {| code := "TEXT_RECOGNITION_ERROR";
                                    codedMessage := messageOr e "Text recognition failed";
                                    cause := e |}))
  /\ (In (Process recognizer image (Throws e)) (trace r) ->
      outcome r = Returns (Rejected {| code := "UNKNOWN_ERROR";
                                       codedMessage := messageOr e "Unknown error";
                                       cause := e |}))
  /\ (forall result,
        In (Process recognizer image result) (trace r) ->
        delegate (selectedScript (scriptOf options)) (store r) = Some recognizer).
Proof.
  intros r. subst r. split; [|split].
  - run_extract; intros H;
      repeat (destruct H as [H|H]; [try discriminate H | ]); try contradiction;
      injection H as <- <- <-; reflexivity.
  - run_extract; intros H;
      repeat (destruct H as [H|H]; [try discriminate H | ]); try contradiction;
      injection H as <- <- <-; reflexivity.
  - intros result. apply processed_by_the_delegate.
Qed.

(** ** What a request does to the module's state *)

(** X13.  A request changes the state of the module in one way only: it
    initializes the delegate of the selected script, with a fresh client, and
    it does so exactly when that delegate was not initialized and the build
    succeeded, whether or not the recognition that follows goes well.  It
    never replaces a client and never touches another delegate. *)
Theorem request_only_initializes_its_delegate
    (env : Env) (uriString : string) (options : option RecognitionOptionsRecord)
    (st : Store) :
  let r := extractTextFromImage env uriString options st in
  let selected := selectedScript (scriptOf options) in
  let fresh := {| model := selected; serial := constructed st |} in
  (store r = st /\ forallb (fun ev => negb (builds selected ev)) (trace r) = true)
  \/ (delegate selected st = None
      /\ store r = initialize selected fresh st
      /\ In (GetClient selected (Returns fresh)) (trace r)).
Proof.
  intros r selected fresh. subst r selected fresh.
  unfold extractTextFromImage. autorewrite with selector.
  generalize (selectedScript (scriptOf options)) as selected. intros selected.
  run_extract.
  all: try match goal with
       | H : Script_eqb ?a ?a = false |- _ =>
           destruct (Script_eqb_spec a a); [discriminate H | congruence]
       end.
  all: first
    [ left; split; reflexivity
    | right; split; [first [assumption | reflexivity]|];
      split; [reflexivity|]; cbn; auto ].
Qed.
